(** * Night_G: the Google login flow and the bearer authenticator

    A shallow embedding of

    - [api/web/api/auth/google/views.py]  ([google_login], [google_callback])
    - [api/library/is_authenticated.py]   ([is_authenticated])

    Python coroutines are embedded as finite trees of calls to the
    collaborators (the Google OAuth client, the DAOs, [jose.jwt]); an
    interpreter runs a tree against an environment and records which
    collaborator was called, in order.  Exceptions are explicit. *)

From Stdlib Require Import ZArith Ascii String List Bool Lia.
From stdpp Require Import base option list strings gmap.

Open Scope string_scope.
Open Scope Z_scope.

(** ** Python values *)

Module Py.

(** The JSON-like values that flow through the two modules: the Google
    profile ([user_info]) and the decoded JWT claims ([payload]).  The
    fields that the code reads hold strings, booleans and integers (or
    [None]); a value of another type is not a [str] either, so it fares
    like [VNone] wherever the code looks at it. *)
Inductive value :=
| VNone
| VBool (b : bool)
| VInt (n : Z)
| VStr (s : string).

#[global] Instance value_eq_dec : EqDecision value.
Proof. solve_decision. Defined.

Abbreviation dict := (gmap string value).

(** Exceptions that the embedded code raises, catches or lets through.
    [ExpiredSignatureError] and [JWTClaimsError] are the subclasses of
    [JWTError] in [jose.exceptions]. *)
Inductive exn :=
| HTTPException (status_code : Z) (detail : string) (headers : list (string * string))
| NotVerifiedEmailError (status_code : Z) (detail : string)
| FaildRetrieveAccessTokenError
| ExpiredSignatureError
| JWTClaimsError
| JWTError
| IndexError
| KeyError (key : string)
| AttributeError
| DuplicateEmail
| OtherError (name : string).

#[global] Instance exn_eq_dec : EqDecision exn.
Proof. solve_decision. Defined.

(** [isinstance(e, JWTError)] *)
Definition is_JWTError (e : exn) : bool :=
  match e with
  | ExpiredSignatureError | JWTClaimsError | JWTError => true
  | _ => false
  end.

(** Truth value of an object, as [not x] and [if x] compute it. *)
Definition truthy (v : value) : bool :=
  match v with
  | VNone => false
  | VBool b => b
  | VInt n => negb (n =? 0)
  | VStr s => negb (String.eqb s EmptyString)
  end.

(** [str.isspace] on one character.  A header value reaches the code
    decoded as latin-1, one character per byte; the whitespace code points
    below 256 are 9..13, 28..32, 0x85 and 0xA0. *)
Definition isspace (c : ascii) : bool :=
  let n := Z.of_nat (nat_of_ascii c) in
  ((9 <=? n) && (n <=? 13)) || ((28 <=? n) && (n <=? 32))
  || (n =? 133) || (n =? 160).

Fixpoint drop_while {A} (f : A -> bool) (l : list A) : list A :=
  match l with
  | [] => []
  | x :: l' => if f x then drop_while f l' else l
  end.

Fixpoint take_while {A} (f : A -> bool) (l : list A) : list A :=
  match l with
  | [] => []
  | x :: l' => if f x then x :: take_while f l' else []
  end.

Definition nonspace (c : ascii) : bool := negb (isspace c).

(** [str.rsplit(sep=None, maxsplit=n)], scanning from the right end: the
    argument is the text reversed and the pieces come out right to left.
    Whitespace runs separate the pieces; once [maxsplit] splits are done,
    what is left (minus the whitespace at its right end) is one piece. *)
Fixpoint rsplit_rev (maxsplit : nat) (r : list ascii) : list (list ascii) :=
  match drop_while isspace r with
  | [] => []
  | c :: r1 =>
      match maxsplit with
      | O => [rev (c :: r1)]
      | S m =>
          rev (take_while nonspace (c :: r1))
          :: rsplit_rev m (drop_while nonspace (c :: r1))
      end
  end.

Definition rsplit (s : string) (maxsplit : nat) : list string :=
  map string_of_list_ascii
      (rev (rsplit_rev maxsplit (rev (list_ascii_of_string s)))).

(** [str.split(sep)] for a one-character separator: cut at every
    occurrence, empty pieces kept. *)
Fixpoint split_on (sep : ascii) (s : list ascii) : list (list ascii) :=
  match s with
  | [] => [[]]
  | c :: s' =>
      if Ascii.eqb c sep then [] :: split_on sep s'
      else match split_on sep s' with
           | p :: ps => (c :: p) :: ps
           | [] => [[c]]
           end
  end.

Definition split (s : string) (sep : ascii) : list string :=
  map string_of_list_ascii (split_on sep (list_ascii_of_string s)).

(** [l[i]] on a list: negative indices count from the end, and an index
    out of range raises [IndexError]. *)
Definition getitem {A} (l : list A) (i : Z) : exn + A :=
  let n := Z.of_nat (length l) in
  let j := if i <? 0 then i + n else i in
  if (j <? 0) || (n <=? j) then inl IndexError
  else match nth_error l (Z.to_nat j) with
       | Some x => inr x
       | None => inl IndexError
       end.

(** [d[k]] on a dict: [KeyError] when the key is absent. *)
Definition dict_getitem (d : dict) (k : string) : exn + value :=
  match d !! k with
  | Some v => inr v
  | None => inl (KeyError k)
  end.

End Py.

Import Py.

(** ** Data of the application *)

(** A row of the users table, as the DAO hands it out. *)
Record UserModel := {
  user_id : Z;
  username : value;
  user_email : value;
}.

#[global] Instance UserModel_eq_dec : EqDecision UserModel.
Proof. solve_decision. Defined.

(** [api.settings.settings]: the fields the two modules read. *)
Record Settings := {
  google_client_id : option string;
  google_client_secret : option string;
  web_url : string;
  token_secret_key : string;
  token_algorithm : string;
}.

(** The part of the FastAPI request that is used: [request.url_for]. *)
Record Request := {
  url_for : string -> string;
}.

(** Modelled from the spec: [json_err_content] of [api/utils/response.py]
    is not among the sources; section 6 gives the body it builds,
    [{status, error, message}]. *)
Record ErrContent := {
  status : Z;
  error : string;
  message : string;
}.

Definition json_err_content (st : Z) (err msg : string) : ErrContent :=
  {| status := st; error := err; message := msg |}.

Inductive Response :=
| JSONResponse (status_code : Z) (content : ErrContent)
| RedirectResponse (url : string).

Inductive level := INFO | ERROR | CRITICAL.

(** ** Calls to the collaborators *)

(** One constructor per awaited call; the index is the type of the value
    the call returns when it does not raise. *)
Inductive effect : Type -> Type :=
| GoogleGetToken (code : string) (client_id client_secret : option string)
    (redirect_uri : string) : effect string
| GoogleGetUserInfo (access_token : string) : effect dict
| GetUserByEmail (email : value) : effect (option UserModel)
| CreateUser (username email : value) : effect Z
| CreateToken (user_id : Z) : effect string
| GetUser (user_id : value) : effect (option UserModel)
| JwtDecode (token key : string) (algorithms : list string) : effect dict.

Inductive event :=
| EvLog (lvl : level) (msg : string)
| EvCall {X} (e : effect X).

(** A coroutine body: it returns, raises, logs, or awaits a collaborator
    and goes on with what the collaborator returned or raised. *)
Inductive prog (A : Type) : Type :=
| Ret (a : A)
| Raise (e : exn)
| Log (lvl : level) (msg : string) (k : prog A)
| Call {X} (e : effect X) (k : exn + X -> prog A).

Arguments Ret {A} a.
Arguments Raise {A} e.
Arguments Log {A} lvl msg k.
Arguments Call {A X} e k.

Fixpoint bind {A B} (p : prog A) (f : A -> prog B) : prog B :=
  match p with
  | Ret a => f a
  | Raise e => Raise e
  | Log lvl msg k => Log lvl msg (bind k f)
  | Call e k => Call e (fun r => bind (k r) f)
  end.

(** [await c], outside any [try]: an exception of the callee goes up. *)
Definition call {X} (e : effect X) : prog X :=
  Call e (fun r => match r with inl ex => Raise ex | inr x => Ret x end).

Definition log (lvl : level) (msg : string) : prog unit :=
  Log lvl msg (Ret tt).

(** An expression that may raise, used as a statement. *)
Definition lift {A} (r : exn + A) : prog A :=
  match r with inl ex => Raise ex | inr a => Ret a end.

(** [try: p  except ...: h]: [h e] is the body of the clause that matches
    [e], [None] when no clause does. *)
Fixpoint try_except {A} (p : prog A) (h : exn -> option (prog A)) : prog A :=
  match p with
  | Ret a => Ret a
  | Raise e => match h e with Some q => q | None => Raise e end
  | Log lvl msg k => Log lvl msg (try_except k h)
  | Call e k => Call e (fun r => try_except (k r) h)
  end.

Notation "'let*' x := c 'in' k" := (bind c (fun x => k))
  (at level 10, x name, c at level 100, k at level 200).

(** ** Running a coroutine *)

Section Run.

Context {W : Type}.

(** What a collaborator answers in a given world, and the world after. *)
Definition handler := forall X, effect X -> W -> (exn + X) * W.

Variable h : handler.

Fixpoint run {A} (p : prog A) (w : W) : (exn + A) * W * list event :=
  match p with
  | Ret a => (inr a, w, [])
  | Raise e => (inl e, w, [])
  | Log lvl msg k =>
      let '(r, w', t) := run k w in (r, w', EvLog lvl msg :: t)
  | Call e k =>
      let '(x, w1) := h _ e w in
      let '(r, w2, t) := run (k x) w1 in
      (r, w2, EvCall e :: t)
  end.

End Run.

Arguments handler W : clear implicits.

(** ** Reading a trace *)

(** The call touches one of the two tables: a lookup or a creation in the
    users table, or the recording of a token. *)
Definition touches_store (ev : event) : bool :=
  match ev with
  | EvCall (GetUserByEmail _) | EvCall (CreateUser _ _)
  | EvCall (CreateToken _) | EvCall (GetUser _) => true
  | _ => false
  end.

Definition is_create_user (ev : event) : bool :=
  match ev with
  | EvCall (CreateUser _ _) => true
  | _ => false
  end.

(** The user id that the login resolved to: the one the token was asked
    for. *)
Fixpoint resolved_user (t : list event) : option Z :=
  match t with
  | [] => None
  | EvCall (CreateToken uid) :: _ => Some uid
  | _ :: t' => resolved_user t'
  end.

(** ** The collaborators that are plain functions *)

Definition substring_of (a b : string) : Prop :=
  exists pre post, b = pre +:+ a +:+ post.

(** The [google] object of [api/services/oauth], as far as [google_login]
    uses it. *)
Record GoogleOAuth := {
  auth_url : string -> string -> string;
}.

(** Modelled from the spec: [google.auth_url] of [api/services/oauth] is
    not among the sources.  Sections 4.2 and 8 give its contract: a
    deterministic URL construction, and the URL contains the given
    redirectUri and clientId. *)
Definition auth_url_contract (g : GoogleOAuth) : Prop :=
  forall cid uri,
    substring_of cid (auth_url g cid uri) /\ substring_of uri (auth_url g cid uri).

(** [urllib.parse.urljoin] and [urllib.parse.urlencode] (on the items of
    the query dict): taken as they are. *)
Record UrlLib := {
  urljoin : string -> string -> string;
  urlencode : list (string * string) -> string;
}.

(** ** The embedded code *)

Section Views.

Variable settings : Settings.
Variable google : GoogleOAuth.
Variable urllib : UrlLib.

(** [google_login], views.py lines 19-46. *)
Definition google_login (request : Request) : prog Response :=
  match google_client_id settings, google_client_secret settings with
  | Some client_id, Some _ =>
      let* _ := log INFO "Success to generate login url and redirect." in
      Ret (RedirectResponse
             (auth_url google client_id (url_for request "google_callback")))
  | cid, csec =>
      let* _ := (match cid with
                 | None => log CRITICAL "Not Found Google client id."
                 | Some _ => Ret tt
                 end) in
      let* _ := (match csec with
                 | None => log CRITICAL "Not Found Google client secret."
                 | Some _ => Ret tt
                 end) in
      Ret (JSONResponse 500
             (json_err_content 500 "Internal Server Error"
                "client_id or client_secret not found to create URL for Google login."))
  end.

(** The [try] block of [google_callback], lines 77-94: the access token,
    or the response the [except] clause returns. *)
Definition retrieve_access_token (request : Request) (code : string)
  : prog (Response + string) :=
  try_except
    (let* access_token :=
       call (GoogleGetToken code (google_client_id settings)
               (google_client_secret settings)
               (url_for request "google_callback")) in
     let* _ := log INFO "Success to retrieve access token from Google API." in
     Ret (inr access_token))
    (fun e =>
       match e with
       | FaildRetrieveAccessTokenError =>
           Some (let* _ := log ERROR "Failed to retrieve access token for Google login." in
                 Ret (inl (JSONResponse 400
                             (json_err_content 400 "Bad Request"
                                "Failed to retrieve the access token for Google login."))))
       | _ => None
       end).

(** [user_email.split("@")]: a method of [str] only. *)
Definition split_at (v : value) : exn + list string :=
  match v with
  | VStr s => inr (split s "@")
  | _ => inl AttributeError
  end.

(** Lines 106-115 of [google_callback]: find the user by email, or create
    it; the value is [user_id]. *)
Definition find_or_create (user_info : dict) (user_email : value)
    (user_email_domain : string) : prog Z :=
  let* user := call (GetUserByEmail user_email) in
  match user with
  | Some user => Ret (user_id user)
  | None =>
      let* name := lift (dict_getitem user_info "name") in
      let* user_id := call (CreateUser name user_email) in
      let* _ := log INFO ("Created new user: xxxx@" +:+ user_email_domain) in
      Ret user_id
  end.

(** Lines 96-115: fetch the profile, take the email and its domain, check
    that the email is verified, then find or create the user. *)
Definition resolve_user (access_token : string) : prog Z :=
  let* user_info := call (GoogleGetUserInfo access_token) in
  let* user_email := lift (dict_getitem user_info "email") in
  let* parts := lift (split_at user_email) in
  let* user_email_domain := lift (getitem parts 1) in
  let* verified_email := lift (dict_getitem user_info "verified_email") in
  if negb (truthy verified_email) then
    Raise (NotVerifiedEmailError 400 "Your google is not verified email address.")
  else
    find_or_create user_info user_email user_email_domain.

(** Lines 117-123: issue the token and redirect to the web client. *)
Definition redirect_with_token (user_id : Z) : prog Response :=
  let* key_token := call (CreateToken user_id) in
  Ret (RedirectResponse
         (urljoin urllib (web_url settings) "callback"
          +:+ "?" +:+ urlencode urllib [("key_token", key_token)])).

Definition login_with_token (access_token : string) : prog Response :=
  let* user_id := resolve_user access_token in
  redirect_with_token user_id.

(** [google_callback], views.py lines 50-123. *)
Definition google_callback (request : Request) (code : option string)
  : prog Response :=
  match code with
  | None =>
      let* _ := log ERROR "Google login failed" in
      Ret (JSONResponse 400
             (json_err_content 400 "Bad Request" "Google login faild."))
  | Some code =>
      let* r := retrieve_access_token request code in
      match r with
      | inl response => Ret response
      | inr access_token => login_with_token access_token
      end
  end.

End Views.

(** The [headers] argument of the [HTTPException]s: the dict with the one
    entry [WWW-Authenticate: Bearer error=<code in double quotes>]. *)
Definition dquote : string := String (ascii_of_nat 34) EmptyString.

Definition www_authenticate (code : string) : list (string * string) :=
  [("WWW-Authenticate", "Bearer error=" +:+ dquote +:+ code +:+ dquote)].

Section Authenticator.

Variable settings : Settings.

(** [UserModelDTO.model_validate] of pydantic: the DTO, or the
    validation error. *)
Variable UserModelDTO : Type.
Variable model_validate : UserModel -> exn + UserModelDTO.

(** [authorization.rsplit(maxsplit=1)[-1]], line 39. *)
Definition extract_token (authorization : string) : exn + string :=
  getitem (rsplit authorization 1) (-1).

(** The [try] block of lines 41-58. *)
Definition decode_payload (jwt_token : string) : prog dict :=
  try_except
    (call (JwtDecode jwt_token (token_secret_key settings)
             [token_algorithm settings]))
    (fun e =>
       match e with
       | ExpiredSignatureError =>
           Some (Raise (HTTPException 401 "Token has expired."
                          (www_authenticate "invalid_token")))
       | _ =>
           if is_JWTError e then
             Some (Raise (HTTPException 401 "Invalid token."
                            (www_authenticate "invalid_token")))
           else None
       end).

(** [is_authenticated], is_authenticated.py lines 11-69. *)
Definition is_authenticated (authorization : option string)
  : prog UserModelDTO :=
  match authorization with
  | None =>
      Raise (HTTPException 400 "Authorization header is missing."
               (www_authenticate "invalid_request"))
  | Some authorization =>
      let* jwt_token := lift (extract_token authorization) in
      let* payload := decode_payload jwt_token in
      let* uid := lift (dict_getitem payload "user_id") in
      let* user := call (GetUser uid) in
      match user with
      | Some user => lift (model_validate user)
      | None =>
          Raise (HTTPException 404 "Not found user."
                   (www_authenticate "not_found_user"))
      end
  end.

End Authenticator.

(** ** The credential, in the words of the specification *)

(** Section 4.6 calls the credential "the last whitespace-delimited token
    in the header value": a non-empty run [tok] of non-whitespace
    characters, with nothing but whitespace after it, and before it either
    nothing or a text that ends in a whitespace character. *)
Definition last_token_chars (s tok : list ascii) : Prop :=
  exists pre suf,
    s = (pre ++ tok ++ suf)%list
    /\ tok <> []
    /\ forallb nonspace tok = true
    /\ forallb isspace suf = true
    /\ (pre = [] \/ exists p c, pre = (p ++ [c])%list /\ isspace c = true).

Definition last_token (header tok : string) : Prop :=
  last_token_chars (list_ascii_of_string header) (list_ascii_of_string tok).

(** A header value with at least one character that is not whitespace. *)
Definition has_nonspace (header : string) : Prop :=
  exists c, In c (list_ascii_of_string header) /\ isspace c = false.

(** A header value made of whitespace only (the empty one included). *)
Definition blank (header : string) : Prop :=
  forallb isspace (list_ascii_of_string header) = true.

(** ** An environment: the stores and the outside world *)

Module Store.

(** The two tables behind the DAOs. *)
Record Db := {
  users : list UserModel;
  tokens : list (Z * string);
}.

(** Modelled from the spec: [UserDAO] of [api/db/dao/user_dao.py] is not
    among the sources.  Section 4.3: [findByEmail] and [findById] return
    the user or none, [createUser] returns the id of the new user and
    fails with [DuplicateEmail] when the email is already there; section
    3: the id is unique, the email is compared as received, and a user is
    never deleted. *)
Definition get_user_by_email (email : value) (db : Db) : option UserModel :=
  find (fun u => bool_decide (user_email u = email)) (users db).

Definition get_user (uid : value) (db : Db) : option UserModel :=
  match uid with
  | VInt n => find (fun u => bool_decide (user_id u = n)) (users db)
  | _ => None
  end.

Definition fresh_id (db : Db) : Z :=
  1 + fold_right Z.max 0 (map user_id (users db)).

Definition create_user (name email : value) (db : Db) : (exn + Z) * Db :=
  match get_user_by_email email db with
  | Some _ => (inl DuplicateEmail, db)
  | None =>
      let uid := fresh_id db in
      (inr uid,
       {| users := users db
                   ++ [{| user_id := uid; username := name; user_email := email |}];
          tokens := tokens db |})
  end.

(** What lies outside the stores: the provider's answers, by authorization
    code and by access token; the token that [TokenDAO.create_token]
    makes for a user, or the exception it ends with; the verdict of
    [jose.jwt.decode] on a token. *)
Record Env := {
  provider_token : string -> exn + string;
  provider_profile : string -> exn + dict;
  issue_token : Z -> exn + string;
  jwt_decode : string -> exn + dict;
}.

(** Modelled from the spec: [TokenDAO.create_token] of
    [api/db/dao/token_dao.py] is not among the sources.  Sections 3 and
    4.4: a token is issued for the user id and recorded under it. *)
Definition create_token (E : Env) (uid : Z) (db : Db) : (exn + string) * Db :=
  match issue_token E uid with
  | inr tok =>
      (inr tok, {| users := users db; tokens := tokens db ++ [(uid, tok)] |})
  | inl e => (inl e, db)
  end.

Definition env_handler (E : Env) : handler Db :=
  fun X (e : effect X) (db : Db) =>
    match e in effect X return (exn + X) * Db with
    | GoogleGetToken code _ _ _ => (provider_token E code, db)
    | GoogleGetUserInfo access_token => (provider_profile E access_token, db)
    | GetUserByEmail email => (inr (get_user_by_email email db), db)
    | CreateUser name email => create_user name email db
    | CreateToken uid => create_token E uid db
    | GetUser uid => (inr (get_user uid db), db)
    | JwtDecode token _ _ => (jwt_decode E token, db)
    end.

End Store.

(** ** A concrete deployment, for running the code *)

Module Demo.

Import Store.

Definition settings : Settings :=
  {| google_client_id := Some "cid-123";
     google_client_secret := Some "s3cr3t";
     web_url := "https://web.example/";
     token_secret_key := "k";
     token_algorithm := "HS256" |}.

Definition request : Request :=
  {| url_for := fun name => "https://api.example/api/auth/google/callback" |}.

Definition google : GoogleOAuth :=
  {| auth_url := fun cid uri =>
       "https://accounts.example/o/oauth2/auth?client_id=" +:+ cid
       +:+ "&redirect_uri=" +:+ uri |}.

(** Settings of a deployment whose operator forgot the client secret. *)
Definition settings_no_secret : Settings :=
  {| google_client_id := Some "cid-123";
     google_client_secret := None;
     web_url := "https://web.example/";
     token_secret_key := "k";
     token_algorithm := "HS256" |}.

Definition urllib : UrlLib :=
  {| urljoin := fun base rel => base +:+ rel;
     urlencode := fun q =>
       match q with
       | [(k, v)] => k +:+ "=" +:+ v
       | _ => EmptyString
       end |}.

Definition profile (email : string) (verified : bool) : dict :=
  {[ "email" := VStr email; "verified_email" := VBool verified;
     "name" := VStr "Alice" ]}.

(** A provider that knows three accounts; the token store works. *)
Definition env : Env :=
  {| provider_token := fun code => inr ("at-" +:+ code);
     provider_profile := fun at_ =>
       if String.eqb at_ "at-alice" then inr (profile "alice@example.com" true)
       else if String.eqb at_ "at-alice2" then inr (profile "alice@example.com" true)
       else if String.eqb at_ "at-bob" then inr (profile "bob@example.com" false)
       else if String.eqb at_ "at-nodomain" then inr (profile "nodomain" false)
       else inl (OtherError "httpx.ConnectError");
     issue_token := fun uid => inr (if uid =? 1 then "jwt-1" else "jwt-n");
     jwt_decode := fun tok =>
       if String.eqb tok "jwt-1" then inr {[ "user_id" := VInt 1 ]}
       else if String.eqb tok "jwt-9" then inr {[ "user_id" := VInt 9 ]}
       else if String.eqb tok "jwt-nosub" then inr {[ "exp" := VInt 4102444800 ]}
       else if String.eqb tok "jwt-old" then inl ExpiredSignatureError
       else inl JWTError |}.

(** The same, with the token table unreachable. *)
Definition env_token_store_down : Env :=
  {| provider_token := provider_token env;
     provider_profile := provider_profile env;
     issue_token := fun _ => inl (OtherError "sqlalchemy.exc.OperationalError");
     jwt_decode := jwt_decode env |}.

Definition empty_db : Db := {| users := []; tokens := [] |}.

Definition alice : UserModel :=
  {| user_id := 1; username := VStr "Alice"; user_email := VStr "alice@example.com" |}.

Definition db_alice : Db := {| users := [alice]; tokens := [] |}.

End Demo.


(** ** More of the outside world, for the error paths *)

(** An event of the trace that is a log line, not a call. *)
Definition is_log (ev : event) : bool :=
  match ev with
  | EvLog _ _ => true
  | EvCall _ => false
  end.

(** The calls of lines 77-100 went well: the access token was retrieved,
    the profile fetched, its email is a string with a domain part and is
    verified. *)
Definition good_profile_fetched {W} (settings : Settings) (request : Request)
    (h : handler W) (code : string) (w : W) (access_token : string)
    (user_info : dict) (w2 : W) (email domain : string) : Prop :=
  exists w1 verified,
    h _ (GoogleGetToken code (google_client_id settings)
           (google_client_secret settings) (url_for request "google_callback")) w
    = (inr access_token, w1)
    /\ h _ (GoogleGetUserInfo access_token) w1 = (inr user_info, w2)
    /\ user_info !! "email" = Some (VStr email)
    /\ getitem (split email "@") 1 = inr domain
    /\ user_info !! "verified_email" = Some verified
    /\ truthy verified = true.

(** The two tables agree with each other: the ids and the emails of the
    users are pairwise distinct, and every recorded token is recorded under
    the id of a user of the table. *)
Definition tables_consistent (db : Store.Db) : Prop :=
  NoDup (map user_id (Store.users db))
  /\ NoDup (map user_email (Store.users db))
  /\ Forall (fun ut => exists u, In u (Store.users db) /\ user_id u = fst ut)
       (Store.tokens db).

Module Cases.

Import Store.

(** A handler in which the calls picked by [fails] raise, and the others
    are answered as [h] answers them. *)
Definition failing (fails : forall X, effect X -> option exn) (h : handler Db)
  : handler Db :=
  fun X e db =>
    match fails X e with
    | Some ex => (inl ex, db)
    | None => h X e db
    end.

(** Another request created the user between the lookup and the
    creation. *)
Definition create_user_races : forall X, effect X -> option exn :=
  fun X e =>
    match e with
    | CreateUser _ _ => Some DuplicateEmail
    | _ => None
    end.

(** The users table cannot be read by id. *)
Definition get_user_is_down : forall X, effect X -> option exn :=
  fun X e =>
    match e with
    | GetUser _ => Some (OtherError "sqlalchemy.exc.OperationalError")
    | _ => None
    end.

(** A provider with accounts of every kind, and codes it rejects. *)
Definition env : Env :=
  {| provider_token := fun code =>
       if String.eqb code "used" then inl FaildRetrieveAccessTokenError
       else if String.eqb code "down" then inl (OtherError "httpx.ConnectError")
       else inr ("at-" +:+ code);
     provider_profile := fun at_ =>
       if String.eqb at_ "at-alice" then
         inr {[ "email" := VStr "alice@example.com"; "verified_email" := VBool true;
                "name" := VStr "Alice" ]}
       else if String.eqb at_ "at-bob" then
         inr {[ "email" := VStr "bob@example.com"; "verified_email" := VBool false;
                "name" := VStr "Bob" ]}
       else if String.eqb at_ "at-noemail" then
         inr {[ "verified_email" := VBool true; "name" := VStr "Nobody" ]}
       else if String.eqb at_ "at-numemail" then
         inr {[ "email" := VInt 5; "verified_email" := VBool true;
                "name" := VStr "Five" ]}
       else if String.eqb at_ "at-noflag" then
         inr {[ "email" := VStr "carol@example.com"; "name" := VStr "Carol" ]}
       else if String.eqb at_ "at-anon" then
         inr {[ "email" := VStr "dave@example.com"; "verified_email" := VBool true ]}
       else inl (OtherError "httpx.ConnectError");
     issue_token := fun uid => inr (if uid =? 1 then "jwt-1" else "jwt-2");
     jwt_decode := fun tok =>
       if String.eqb tok "jwt-1" then inr {[ "user_id" := VInt 1 ]}
       else if String.eqb tok "jwt-2" then inr {[ "user_id" := VInt 2 ]}
       else if String.eqb tok "weird" then inl (OtherError "TypeError")
       else inl JWTError |}.

(** The users table cannot be searched by email. *)
Definition get_user_by_email_is_down : forall X, effect X -> option exn :=
  fun X e =>
    match e with
    | GetUserByEmail _ => Some (OtherError "sqlalchemy.exc.OperationalError")
    | _ => None
    end.

(** A users table with Dave in it. *)
Definition dave : UserModel :=
  {| user_id := 7; username := VStr "Dave"; user_email := VStr "dave@example.com" |}.

Definition db_dave : Db := {| users := [dave]; tokens := [] |}.

(** A users table where the row of Alice has lost its name. *)
Definition nameless_alice : UserModel :=
  {| user_id := 1; username := VNone; user_email := VStr "alice@example.com" |}.

Definition db_nameless : Db := {| users := [nameless_alice]; tokens := [] |}.

(** A validation in the manner of pydantic: a user needs a name. *)
Definition validate_name (u : UserModel) : exn + UserModel :=
  match username u with
  | VStr _ => inr u
  | _ => inl (OtherError "pydantic.ValidationError")
  end.

End Cases.

(** * Properties *)

(** ** The string methods *)

Example rsplit_bearer : rsplit "Bearer abc.def" 1 = ["Bearer"; "abc.def"].
Proof. reflexivity. Qed.

Example rsplit_padded : rsplit "  a b  " 1 = ["  a"; "b"].
Proof. reflexivity. Qed.

Example rsplit_blank : rsplit "   " 1 = [].
Proof. reflexivity. Qed.

Example split_email : split "alice@example.com" "@" = ["alice"; "example.com"].
Proof. reflexivity. Qed.

Example split_no_at : split "alice" "@" = ["alice"].
Proof. reflexivity. Qed.

Example getitem_last : getitem (rsplit "Bearer abc" 1) (-1) = inr "abc".
Proof. reflexivity. Qed.

Section WhileLemmas.

Context {A : Type}.
Variable f : A -> bool.

Lemma take_drop_while (l : list A) : l = (take_while f l ++ drop_while f l)%list.
Proof.
  induction l as [|x l IH]; simpl; [reflexivity|].
  destruct (f x); simpl; [f_equal; exact IH | reflexivity].
Qed.

Lemma drop_while_head (l : list A) x l' : drop_while f l = x :: l' -> f x = false.
Proof.
  induction l as [|y l IH]; simpl; [discriminate|].
  destruct (f y) eqn:E; [exact IH|]. intros [= -> _]. exact E.
Qed.

Lemma drop_while_all (l : list A) : forallb f l = true -> drop_while f l = [].
Proof.
  induction l as [|x l IH]; simpl; [reflexivity|].
  destruct (f x); simpl; [exact IH | discriminate].
Qed.

Lemma drop_while_nil (l : list A) : drop_while f l = [] -> forallb f l = true.
Proof.
  induction l as [|x l IH]; simpl; [reflexivity|].
  destruct (f x); simpl; [exact IH | discriminate].
Qed.

Lemma drop_while_app_all (l k : list A) :
  forallb f l = true -> drop_while f (l ++ k) = drop_while f k.
Proof.
  induction l as [|x l IH]; simpl; [reflexivity|].
  destruct (f x); simpl; [exact IH | discriminate].
Qed.

Lemma forallb_take_while (l : list A) : forallb f (take_while f l) = true.
Proof.
  induction l as [|x l IH]; simpl; [reflexivity|].
  destruct (f x) eqn:E; simpl; [rewrite E; exact IH | reflexivity].
Qed.

(** Scanning a run of accepted items stops at the first rejected one. *)
Lemma take_while_app_stop (l k : list A) :
  forallb f l = true ->
  (k = [] \/ exists x k', k = x :: k' /\ f x = false) ->
  take_while f (l ++ k) = l /\ drop_while f (l ++ k) = k.
Proof.
  intros Hl Hk. induction l as [|x l IH]; simpl in *.
  - destruct Hk as [->|(x & k' & -> & Hx)]; simpl; [auto|]. rewrite Hx. auto.
  - destruct (f x); simpl in *; [|discriminate].
    destruct (IH Hl) as [-> ->]. auto.
Qed.

End WhileLemmas.

Lemma forallb_rev {A} (f : A -> bool) (l : list A) :
  forallb f (rev l) = forallb f l.
Proof.
  induction l as [|x l IH]; simpl; [reflexivity|].
  rewrite forallb_app, IH. simpl. rewrite andb_true_r. apply andb_comm.
Qed.

Lemma getitem_last_of {A} (l : list A) (x : A) : getitem (l ++ [x]) (-1) = inr x.
Proof.
  unfold getitem. rewrite length_app. simpl length.
  replace (-1 <? 0) with true by reflexivity.
  replace (-1 + Z.of_nat (length l + 1)) with (Z.of_nat (length l)) by lia.
  replace (Z.of_nat (length l) <? 0) with false by (symmetry; apply Z.ltb_ge; lia).
  replace (Z.of_nat (length l + 1) <=? Z.of_nat (length l)) with false
    by (symmetry; apply Z.leb_gt; lia).
  simpl. rewrite Nat2Z.id.
  rewrite nth_error_app2 by lia. rewrite Nat.sub_diag. reflexivity.
Qed.

(** On a blank text nothing is split off. *)
Lemma rsplit_blank_nil (s : string) (n : nat) : blank s -> rsplit s n = [].
Proof.
  unfold blank, rsplit. intros H.
  assert (Hd : drop_while isspace (rev (list_ascii_of_string s)) = [])
    by (apply drop_while_all; rewrite forallb_rev; exact H).
  destruct n; simpl; rewrite Hd; reflexivity.
Qed.

Lemma rsplit_rev_S (m : nat) (r : list ascii) :
  rsplit_rev (S m) r =
  match drop_while isspace r with
  | [] => []
  | c :: r1 =>
      rev (take_while nonspace (c :: r1))
      :: rsplit_rev m (drop_while nonspace (c :: r1))
  end.
Proof. reflexivity. Qed.

(** With one split allowed, the piece on the right is the last token. *)
Lemma rsplit_last_token (s tok : list ascii) :
  last_token_chars s tok ->
  exists pieces, rev (rsplit_rev 1 (rev s)) = (pieces ++ [tok])%list.
Proof.
  intros (pre & suf & -> & Hne & Htok & Hsuf & Hpre).
  rewrite !rev_app_distr, rsplit_rev_S.
  rewrite <- app_assoc.
  rewrite drop_while_app_all by (rewrite forallb_rev; exact Hsuf).
  assert (Hk : rev pre = [] \/ exists x k', rev pre = x :: k' /\ nonspace x = false).
  { destruct Hpre as [->|(p & c & -> & Hc)]; [left; reflexivity|].
    right. exists c, (rev p). rewrite rev_app_distr.
    split; [reflexivity|]. unfold nonspace. rewrite Hc. reflexivity. }
  assert (Ht : forallb nonspace (rev tok) = true) by (rewrite forallb_rev; exact Htok).
  destruct (rev tok) as [|c r] eqn:Er.
  { exfalso. apply Hne. rewrite <- (rev_involutive tok), Er. reflexivity. }
  assert (Hc : isspace c = false).
  { simpl in Ht. apply andb_true_iff in Ht as [Hc _]. unfold nonspace in Hc.
    destruct (isspace c); [discriminate | reflexivity]. }
  destruct (take_while_app_stop nonspace (c :: r) (rev pre) Ht Hk) as [Htk Hdr].
  change ((c :: r) ++ rev pre)%list with (c :: (r ++ rev pre))%list in *.
  assert (Hds : drop_while isspace (c :: (r ++ rev pre)) = c :: (r ++ rev pre))
    by (simpl; rewrite Hc; reflexivity).
  rewrite Hds, Htk, Hdr.
  rewrite <- Er, rev_involutive. cbn [rev]. eexists. reflexivity.
Qed.

Lemma extract_token_last_token (header tok : string) :
  last_token header tok -> extract_token header = inr tok.
Proof.
  intros H. apply rsplit_last_token in H as [pieces Hp].
  unfold extract_token, rsplit. rewrite Hp, map_app. simpl map.
  rewrite string_of_list_ascii_of_string. apply getitem_last_of.
Qed.

(** A text that is not blank has a last token. *)
Lemma has_last_token (s : list ascii) :
  (exists c, In c s /\ isspace c = false) -> exists tok, last_token_chars s tok.
Proof.
  intros (c & Hin & Hc).
  set (r := rev s).
  destruct (drop_while isspace r) as [|d r1] eqn:Ed.
  { apply drop_while_nil in Ed. unfold r in Ed. rewrite forallb_rev in Ed.
    rewrite forallb_forall in Ed. rewrite (Ed c Hin) in Hc. discriminate. }
  pose proof (drop_while_head _ _ _ _ Ed) as Hd.
  pose proof (take_drop_while isspace r) as Hr. rewrite Ed in Hr.
  pose proof (take_drop_while nonspace (d :: r1)) as Hw.
  exists (rev (take_while nonspace (d :: r1))).
  exists (rev (drop_while nonspace (d :: r1))), (rev (take_while isspace r)).
  split; [|split; [|split; [|split]]].
  - rewrite <- !rev_app_distr, <- app_assoc, <- Hw, <- Hr. unfold r.
    symmetry. apply rev_involutive.
  - simpl. unfold nonspace at 1. rewrite Hd. simpl.
    intros E. apply app_eq_nil in E as [_ E]. discriminate.
  - rewrite forallb_rev. apply forallb_take_while.
  - rewrite forallb_rev. apply forallb_take_while.
  - destruct (drop_while nonspace (d :: r1)) as [|x k] eqn:Ek; [left; reflexivity|].
    right. exists (rev k), x. split; [reflexivity|].
    apply drop_while_head in Ek. unfold nonspace in Ek.
    destruct (isspace x); [reflexivity | discriminate].
Qed.

(** ** Equations of the interpreter *)

Section RunLemmas.

Context {W : Type}.
Variable h : handler W.

Lemma run_bind {A B} (p : prog A) (f : A -> prog B) (w : W) :
  run h (bind p f) w =
  match run h p w with
  | (inl e, w1, t) => (inl e, w1, t)
  | (inr a, w1, t) =>
      let '(r, w2, t') := run h (f a) w1 in (r, w2, (t ++ t')%list)
  end.
Proof.
  revert w. induction p as [a|e|lvl msg k IH|X e k IH]; intros w; simpl.
  - destruct (run h (f a) w) as [[r w2] t']. reflexivity.
  - reflexivity.
  - rewrite IH. destruct (run h k w) as [[[e|a] w1] t]; [reflexivity|].
    destruct (run h (f a) w1) as [[r w2] t']. reflexivity.
  - destruct (h X e w) as [x w1]. rewrite IH.
    destruct (run h (k x) w1) as [[[e'|a] w2] t]; [reflexivity|].
    destruct (run h (f a) w2) as [[r w3] t']. reflexivity.
Qed.

Lemma run_try_except {A} (p : prog A) (hd : exn -> option (prog A)) (w : W) :
  run h (try_except p hd) w =
  match run h p w with
  | (inl e, w1, t) =>
      match hd e with
      | Some q => let '(r, w2, t') := run h q w1 in (r, w2, (t ++ t')%list)
      | None => (inl e, w1, t)
      end
  | (inr a, w1, t) => (inr a, w1, t)
  end.
Proof.
  revert w. induction p as [a|e|lvl msg k IH|X e k IH]; intros w; simpl.
  - reflexivity.
  - destruct (hd e) as [q|]; [|reflexivity].
    destruct (run h q w) as [[r w2] t']. reflexivity.
  - rewrite IH. destruct (run h k w) as [[[e|a] w1] t]; [|reflexivity].
    destruct (hd e) as [q|]; [|reflexivity].
    destruct (run h q w1) as [[r w2] t']. reflexivity.
  - destruct (h X e w) as [x w1]. rewrite IH.
    destruct (run h (k x) w1) as [[[e'|a] w2] t]; [|reflexivity].
    destruct (hd e') as [q|]; [|reflexivity].
    destruct (run h q w2) as [[r w3] t']. reflexivity.
Qed.

Lemma run_call {X} (e : effect X) (w : W) :
  run h (call e) w = (fst (h X e w), snd (h X e w), [EvCall e]).
Proof.
  unfold call. simpl. destruct (h X e w) as [[ex|x] w1]; reflexivity.
Qed.

Lemma run_lift {A} (r : exn + A) (w : W) : run h (lift r) w = (r, w, []).
Proof. destruct r; reflexivity. Qed.

Lemma run_log lvl msg (w : W) : run h (log lvl msg) w = (inr tt, w, [EvLog lvl msg]).
Proof. reflexivity. Qed.

End RunLemmas.


(** ** Proof steps *)

Ltac run_simpl :=
  repeat (rewrite ?run_bind, ?run_try_except, ?run_call, ?run_lift, ?run_log;
          cbn [fst snd app]).

(** ** [google_login] *)

(** C7: when the client id or the client secret is missing from the
    settings, [google_login] answers with a 500 JSON body
    [{status, error, message}]; when both are there, it redirects to the URL
    that [google.auth_url] builds from the configured client id and the
    callback URI, and that URL contains both. *)
Theorem google_login_outcomes (settings : Settings) (g : GoogleOAuth)
    (request : Request) {W} (h : handler W) (w : W) :
  auth_url_contract g ->
  ((google_client_id settings = None \/ google_client_secret settings = None) ->
   exists t,
     run h (google_login settings g request) w =
     (inr (JSONResponse 500
             {| status := 500;
                error := "Internal Server Error";
                message := "client_id or client_secret not found to create URL for Google login." |}),
      w, t))
  /\ (forall cid sec,
        google_client_id settings = Some cid ->
        google_client_secret settings = Some sec ->
        let url := auth_url g cid (url_for request "google_callback") in
        run h (google_login settings g request) w =
        (inr (RedirectResponse url), w,
         [EvLog INFO "Success to generate login url and redirect."])
        /\ substring_of cid url
        /\ substring_of (url_for request "google_callback") url).
Proof.
  intros Hg. split.
  - intros Hmiss. unfold google_login.
    destruct (google_client_id settings) as [cid|], (google_client_secret settings) as [sec|];
      try (destruct Hmiss; discriminate); eexists; reflexivity.
  - intros cid sec Hcid Hsec url. unfold google_login. rewrite Hcid, Hsec.
    split; [reflexivity|]. apply Hg.
Qed.

(** ** [is_authenticated] *)

Section AuthenticatorFacts.

Variable settings : Settings.
Variable UserModelDTO : Type.
Variable model_validate : UserModel -> exn + UserModelDTO.
Context {W : Type}.
Variable h : handler W.

Local Abbreviation authenticate := (is_authenticated settings UserModelDTO model_validate).
Local Abbreviation decode tok :=
  (JwtDecode tok (token_secret_key settings) [token_algorithm settings]).

Lemma run_decode_payload_ok tok w payload w1 :
  h _ (decode tok) w = (inr payload, w1) ->
  run h (decode_payload settings tok) w = (inr payload, w1, [EvCall (decode tok)]).
Proof. intros H. unfold decode_payload. run_simpl. rewrite H. reflexivity. Qed.



Lemma run_authenticate_token authorization tok w :
  extract_token authorization = inr tok ->
  run h (authenticate (Some authorization)) w =
  match run h (decode_payload settings tok) w with
  | (inl e, w1, t) => (inl e, w1, t)
  | (inr payload, w1, t) =>
      match dict_getitem payload "user_id" with
      | inl e => (inl e, w1, t)
      | inr uid =>
          let '(r, w2) := h _ (GetUser uid) w1 in
          (match r with
           | inl e => inl e
           | inr (Some user) => model_validate user
           | inr None =>
               inl (HTTPException 404 "Not found user."
                      (www_authenticate "not_found_user"))
           end, w2, (t ++ [EvCall (GetUser uid)])%list)
      end
  end.
Proof.
  intros Htok. unfold is_authenticated. rewrite run_bind, run_lift, Htok.
  rewrite run_bind.
  destruct (run h (decode_payload settings tok) w) as [[[e|payload] w1] t];
    [reflexivity|].
  rewrite run_bind, run_lift.
  destruct (dict_getitem payload "user_id") as [e|uid]; [rewrite app_nil_r; reflexivity|].
  rewrite run_bind, run_call.
  destruct (h _ (GetUser uid) w1) as [[e|[user|]] w2]; cbn [fst snd].
  - reflexivity.
  - rewrite run_lift. rewrite app_nil_r. reflexivity.
  - reflexivity.
Qed.

(** The first thing [is_authenticated] does with a token it could extract
    is to hand it to [jwt.decode]. *)
Lemma authenticate_decodes_extracted_token authorization tok w :
  extract_token authorization = inr tok ->
  exists rest,
    snd (run h (authenticate (Some authorization)) w) = EvCall (decode tok) :: rest.
Proof.
  intros Htok. rewrite (run_authenticate_token authorization tok w Htok).
  unfold decode_payload. rewrite run_try_except, run_call.
  destruct (h _ (decode tok) w) as [[e|payload] w1]; cbn [fst snd].
  - destruct e; eexists; reflexivity.
  - destruct (dict_getitem payload "user_id") as [e|uid]; [eexists; reflexivity|].
    destruct (h _ (GetUser uid) w1) as [r w2]. eexists. reflexivity.
Qed.

End AuthenticatorFacts.

Section AuthenticatorClaims.

Variable settings : Settings.
Variable UserModelDTO : Type.
Variable model_validate : UserModel -> exn + UserModelDTO.
Context {W : Type}.
Variable h : handler W.

Local Abbreviation authenticate := (is_authenticated settings UserModelDTO model_validate).
Local Abbreviation decode tok :=
  (JwtDecode tok (token_secret_key settings) [token_algorithm settings]).


(** C6: from a header value with a character that is not whitespace,
    [is_authenticated] takes the last whitespace-delimited token as the
    credential: that token, and no other text, is what it hands to
    [jwt.decode], as its first call.  So for a token [t] (non-empty,
    without whitespace) the headers [Bearer t] and [t] both have [t]
    decoded, the two calls run alike, and when [t] is accepted and its
    user found, both return that user. *)
Theorem credential_is_last_token :
  (forall header,
      has_nonspace header ->
      exists tok,
        last_token header tok
        /\ (forall tok', last_token header tok' -> tok' = tok)
        /\ extract_token header = inr tok
        /\ forall w,
            exists rest,
              snd (run h (authenticate (Some header)) w)
              = EvCall (decode tok) :: rest)
  /\ (forall t,
         t <> EmptyString ->
         forallb nonspace (list_ascii_of_string t) = true ->
         extract_token ("Bearer " +:+ t) = inr t
         /\ extract_token t = inr t
         /\ is_authenticated settings UserModelDTO model_validate (Some ("Bearer " +:+ t))
            = is_authenticated settings UserModelDTO model_validate (Some t)
         /\ (forall w, run h (authenticate (Some ("Bearer " +:+ t))) w
                       = run h (authenticate (Some t)) w)
         /\ (forall w,
                exists rest,
                  snd (run h (authenticate (Some ("Bearer " +:+ t))) w)
                  = EvCall (decode t) :: rest
                  /\ snd (run h (authenticate (Some t)) w)
                     = EvCall (decode t) :: rest)
         /\ forall w payload uid user dto w1 w2,
             h _ (decode t) w = (inr payload, w1) ->
             payload !! "user_id" = Some uid ->
             h _ (GetUser uid) w1 = (inr (Some user), w2) ->
             model_validate user = inr dto ->
             run h (authenticate (Some ("Bearer " +:+ t))) w
             = (inr dto, w2, [EvCall (decode t); EvCall (GetUser uid)])
             /\ run h (authenticate (Some t)) w
                = (inr dto, w2, [EvCall (decode t); EvCall (GetUser uid)])).
Proof.
  split.
  - intros header Hns.
    destruct (has_last_token (list_ascii_of_string header) Hns) as [tok Htok].
    exists (string_of_list_ascii tok).
    assert (Hl : last_token header (string_of_list_ascii tok))
      by (unfold last_token; rewrite list_ascii_of_string_of_list_ascii; exact Htok).
    pose proof (extract_token_last_token _ _ Hl) as He.
    split; [exact Hl | split; [|split; [exact He|]]].
    + intros tok' Hl'. apply extract_token_last_token in Hl'. congruence.
    + intros w.
      exact (authenticate_decodes_extracted_token settings UserModelDTO
               model_validate h header _ w He).
  - intros t Hne Ht.
    assert (Hnil : list_ascii_of_string t <> []).
    { intros E. apply Hne. rewrite <- (string_of_list_ascii_of_string t), E. reflexivity. }
    assert (Hb : extract_token ("Bearer " +:+ t) = inr t).
    { apply extract_token_last_token.
      exists (list_ascii_of_string "Bearer "), [].
      rewrite app_nil_r. repeat split; try assumption.
      right. exists (list_ascii_of_string "Bearer"), " "%char.
      split; reflexivity. }
    assert (Hp : extract_token t = inr t).
    { apply extract_token_last_token. exists [], [].
      rewrite app_nil_r. repeat split; try assumption. left; reflexivity. }
    assert (He : is_authenticated settings UserModelDTO model_validate (Some ("Bearer " +:+ t))
                 = is_authenticated settings UserModelDTO model_validate (Some t)).
    { unfold is_authenticated. rewrite Hb, Hp. reflexivity. }
    split; [exact Hb|]. split; [exact Hp|]. split; [exact He|].
    split; [intros w; rewrite He; reflexivity|]. split.
    + intros w.
      destruct (authenticate_decodes_extracted_token settings UserModelDTO
                  model_validate h t t w Hp) as [rest Hrest].
      exists rest. rewrite He. split; exact Hrest.
    + intros w payload uid user dto w1 w2 Hd Hu Hg Hv.
      assert (Hrun : run h (authenticate (Some t)) w
                     = (inr dto, w2, [EvCall (decode t); EvCall (GetUser uid)])).
      { rewrite (run_authenticate_token settings UserModelDTO model_validate h
                   t t w Hp).
        rewrite (run_decode_payload_ok settings h t w payload w1 Hd).
        unfold dict_getitem. rewrite Hu, Hg, Hv. reflexivity. }
      split; [rewrite He|]; exact Hrun.
Qed.

(** C8: on a header value that is present but blank (whitespace only, or
    empty) [rsplit] returns the empty list, [[-1]] raises [IndexError],
    and the exception leaves [is_authenticated] as it is: it is none of the
    [HTTPException]s, and no collaborator was called. *)
Theorem blank_header_raises_IndexError (authorization : string) (w : W) :
  blank authorization ->
  rsplit authorization 1 = []
  /\ run h (authenticate (Some authorization)) w = (inl IndexError, w, [])
  /\ forall st detail headers,
      fst (fst (run h (authenticate (Some authorization)) w))
      <> inl (HTTPException st detail headers).
Proof.
  intros Hb. pose proof (rsplit_blank_nil authorization 1 Hb) as Hr.
  assert (Hrun : run h (authenticate (Some authorization)) w = (inl IndexError, w, [])).
  { unfold is_authenticated, extract_token. rewrite Hr. reflexivity. }
  repeat split; try assumption.
  intros st detail headers. rewrite Hrun. discriminate.
Qed.

(** C10: when [jwt.decode] accepts the token and the payload has no
    [user_id] entry, [payload["user_id"]] raises [KeyError], outside the
    [try]: [is_authenticated] ends with the [KeyError], not with the 401
    [HTTPException], and [get_user] is not called. *)
Theorem missing_user_id_raises_KeyError (authorization tok : string)
    (payload : dict) (w w1 : W) :
  extract_token authorization = inr tok ->
  h _ (decode tok) w = (inr payload, w1) ->
  payload !! "user_id" = None ->
  run h (authenticate (Some authorization)) w =
  (inl (KeyError "user_id"), w1, [EvCall (decode tok)]).
Proof.
  intros Htok Hd Hu.
  rewrite (run_authenticate_token settings UserModelDTO model_validate h
             authorization tok w Htok).
  rewrite (run_decode_payload_ok settings h tok w payload w1 Hd).
  unfold dict_getitem. rewrite Hu. reflexivity.
Qed.

End AuthenticatorClaims.

(** ** [google_callback] *)

Lemma split_on_absent (sep : ascii) (s : list ascii) :
  ~ In sep s -> split_on sep s = [s].
Proof.
  induction s as [|c s IH]; simpl; [reflexivity|].
  intros Hn. destruct (Ascii.eqb c sep) eqn:E.
  - apply Ascii.eqb_eq in E. exfalso. apply Hn. left. exact E.
  - rewrite IH by (intros Hin; apply Hn; right; exact Hin). reflexivity.
Qed.

(** Without an [@] the split has one piece, and [[1]] is out of range. *)
Lemma domain_of_email_without_at (email : string) :
  ~ In "@"%char (list_ascii_of_string email) ->
  split_at (VStr email) = inr [email] /\ getitem [email] 1 = inl IndexError.
Proof.
  intros H. split; [|reflexivity].
  unfold split_at, split. rewrite (split_on_absent _ _ H). simpl.
  rewrite string_of_list_ascii_of_string. reflexivity.
Qed.

Section CallbackFacts.

Variable settings : Settings.
Variable urllib : UrlLib.
Variable request : Request.
Context {W : Type}.
Variable h : handler W.

Local Abbreviation callback := (google_callback settings urllib request).
Local Abbreviation get_token code :=
  (GoogleGetToken code (google_client_id settings) (google_client_secret settings)
     (url_for request "google_callback")).
Local Abbreviation token_ok := (EvLog INFO "Success to retrieve access token from Google API.").

Lemma run_retrieve_ok code w access_token w1 :
  h _ (get_token code) w = (inr access_token, w1) ->
  run h (retrieve_access_token settings request code) w =
  (inr (inr access_token), w1, [EvCall (get_token code); token_ok]).
Proof. intros H. unfold retrieve_access_token. run_simpl. rewrite H. reflexivity. Qed.

Lemma run_callback_with_token code w r1 :
  run h (retrieve_access_token settings request code) w = r1 ->
  run h (callback (Some code)) w =
  match r1 with
  | (inl e, w1, t) => (inl e, w1, t)
  | (inr (inl response), w1, t) => (inr response, w1, t)
  | (inr (inr access_token), w1, t) =>
      match run h (resolve_user access_token) w1 with
      | (inl e, w2, t2) => (inl e, w2, (t ++ t2)%list)
      | (inr uid, w2, t2) =>
          let '(x, w3) := h _ (CreateToken uid) w2 in
          (match x with
           | inl e => inl e
           | inr key_token =>
               inr (RedirectResponse
                      (urljoin urllib (web_url settings) "callback"
                       +:+ "?" +:+ urlencode urllib [("key_token", key_token)]))
           end, w3, (t ++ t2 ++ [EvCall (CreateToken uid)])%list)
      end
  end.
Proof.
  intros <-. unfold google_callback. rewrite run_bind.
  destruct (run h (retrieve_access_token settings request code) w)
    as [[[e|[response|access_token]] w1] t]; [reflexivity| |].
  - simpl. rewrite app_nil_r. reflexivity.
  - unfold login_with_token. rewrite run_bind.
    destruct (run h (resolve_user access_token) w1) as [[[e|uid] w2] t2];
      [reflexivity|].
    unfold redirect_with_token. rewrite run_bind, run_call.
    destruct (h _ (CreateToken uid) w2) as [[e|key_token] w3]; cbn [fst snd];
      [reflexivity|].
    simpl. reflexivity.
Qed.

(** The profile part of [resolve_user], lines 96-104, once the provider
    has answered. *)
Lemma run_resolve_user access_token w user_info w1 :
  h _ (GoogleGetUserInfo access_token) w = (inr user_info, w1) ->
  run h (resolve_user access_token) w =
  match dict_getitem user_info "email" with
  | inl e => (inl e, w1, [EvCall (GoogleGetUserInfo access_token)])
  | inr user_email =>
      match split_at user_email with
      | inl e => (inl e, w1, [EvCall (GoogleGetUserInfo access_token)])
      | inr parts =>
          match getitem parts 1 with
          | inl e => (inl e, w1, [EvCall (GoogleGetUserInfo access_token)])
          | inr domain =>
              match dict_getitem user_info "verified_email" with
              | inl e => (inl e, w1, [EvCall (GoogleGetUserInfo access_token)])
              | inr verified =>
                  if negb (truthy verified) then
                    (inl (NotVerifiedEmailError 400
                            "Your google is not verified email address."),
                     w1, [EvCall (GoogleGetUserInfo access_token)])
                  else
                    let '(r, w2, t) :=
                      run h (find_or_create user_info user_email domain) w1 in
                    (r, w2, EvCall (GoogleGetUserInfo access_token) :: t)
              end
          end
      end
  end.
Proof.
  intros H. unfold resolve_user. rewrite run_bind, run_call, H. cbn [fst snd].
  rewrite run_bind, run_lift.
  destruct (dict_getitem user_info "email") as [e|user_email]; [reflexivity|].
  rewrite run_bind, run_lift.
  destruct (split_at user_email) as [e|parts]; [reflexivity|].
  rewrite run_bind, run_lift.
  destruct (getitem parts 1) as [e|domain]; [reflexivity|].
  rewrite run_bind, run_lift.
  destruct (dict_getitem user_info "verified_email") as [e|verified]; [reflexivity|].
  destruct (negb (truthy verified)); [reflexivity|].
  destruct (run h (find_or_create user_info user_email domain) w1) as [[r w2] t].
  reflexivity.
Qed.

(** An exception of [google.get_user_info] leaves [google_callback]
    unchanged: line 96 is outside the [try] of lines 77-94. *)
Lemma profile_fetch_exception_propagates code w access_token w1 e w2 :
  h _ (get_token code) w = (inr access_token, w1) ->
  h _ (GoogleGetUserInfo access_token) w1 = (inl e, w2) ->
  run h (callback (Some code)) w =
  (inl e, w2,
   [EvCall (get_token code); token_ok; EvCall (GoogleGetUserInfo access_token)]).
Proof.
  intros Ht Hp.
  rewrite (run_callback_with_token code w _ (run_retrieve_ok _ _ _ _ Ht)).
  unfold resolve_user. rewrite run_bind, run_call, Hp. reflexivity.
Qed.

(** With an email that has a domain part and is not verified, the call
    ends with [NotVerifiedEmailError] right after the profile fetch: no DAO
    is called. *)
Lemma unverified_email_rejected code w access_token w1 user_info w2
    user_email parts domain verified :
  h _ (get_token code) w = (inr access_token, w1) ->
  h _ (GoogleGetUserInfo access_token) w1 = (inr user_info, w2) ->
  user_info !! "email" = Some user_email ->
  split_at user_email = inr parts ->
  getitem parts 1 = inr domain ->
  user_info !! "verified_email" = Some verified ->
  truthy verified = false ->
  run h (callback (Some code)) w =
  (inl (NotVerifiedEmailError 400 "Your google is not verified email address."),
   w2,
   [EvCall (get_token code); token_ok; EvCall (GoogleGetUserInfo access_token)]).
Proof.
  intros Ht Hp He Hs Hd Hv Hf.
  rewrite (run_callback_with_token code w _ (run_retrieve_ok _ _ _ _ Ht)).
  rewrite (run_resolve_user _ _ _ _ Hp).
  unfold dict_getitem. rewrite He, Hs, Hd, Hv, Hf. reflexivity.
Qed.

(** Whatever the email looks like, a profile that is not verified never
    gets as far as the DAOs: the call ends with an exception right after
    the profile fetch. *)
Lemma unverified_profile_never_reaches_the_stores code w access_token w1
    user_info w2 verified :
  h _ (get_token code) w = (inr access_token, w1) ->
  h _ (GoogleGetUserInfo access_token) w1 = (inr user_info, w2) ->
  user_info !! "verified_email" = Some verified ->
  truthy verified = false ->
  exists e,
    run h (callback (Some code)) w =
    (inl e, w2,
     [EvCall (get_token code); token_ok; EvCall (GoogleGetUserInfo access_token)]).
Proof.
  intros Ht Hp Hv Hf.
  rewrite (run_callback_with_token code w _ (run_retrieve_ok _ _ _ _ Ht)).
  rewrite (run_resolve_user _ _ _ _ Hp).
  destruct (dict_getitem user_info "email") as [e|user_email]; [eexists; reflexivity|].
  destruct (split_at user_email) as [e|parts]; [eexists; reflexivity|].
  destruct (getitem parts 1) as [e|domain]; [eexists; reflexivity|].
  unfold dict_getitem. rewrite Hv, Hf. eexists; reflexivity.
Qed.

(** C9: when the fetched profile has an email without [@], line 98 raises
    [IndexError] and nothing catches it; the check of [verified_email]
    on line 100 is not reached, so its value plays no part. *)
Theorem email_without_at_raises_IndexError code w access_token w1 user_info w2 email :
  h _ (get_token code) w = (inr access_token, w1) ->
  h _ (GoogleGetUserInfo access_token) w1 = (inr user_info, w2) ->
  user_info !! "email" = Some (VStr email) ->
  ~ In "@"%char (list_ascii_of_string email) ->
  run h (callback (Some code)) w =
  (inl IndexError, w2,
   [EvCall (get_token code); token_ok; EvCall (GoogleGetUserInfo access_token)]).
Proof.
  intros Ht Hp He Hat.
  rewrite (run_callback_with_token code w _ (run_retrieve_ok _ _ _ _ Ht)).
  rewrite (run_resolve_user _ _ _ _ Hp).
  destruct (domain_of_email_without_at email Hat) as [Hs Hd].
  unfold dict_getitem. rewrite He, Hs, Hd. reflexivity.
Qed.

(** C2, as the code has it: once the user is resolved, the outcome is what
    [token_dao.create_token] makes it.  If the call raises, the exception
    leaves [google_callback] and there is no redirect; if it returns a
    token, the answer is the redirect to the web client with that token
    as [key_token]. *)
Theorem create_token_decides_outcome code w access_token w1 t1 uid w2 t2 :
  run h (retrieve_access_token settings request code) w
  = (inr (inr access_token), w1, t1) ->
  run h (resolve_user access_token) w1 = (inr uid, w2, t2) ->
  (forall e w3,
      h _ (CreateToken uid) w2 = (inl e, w3) ->
      run h (callback (Some code)) w =
      (inl e, w3, (t1 ++ t2 ++ [EvCall (CreateToken uid)])%list))
  /\ (forall key_token w3,
         h _ (CreateToken uid) w2 = (inr key_token, w3) ->
         run h (callback (Some code)) w =
         (inr (RedirectResponse
                 (urljoin urllib (web_url settings) "callback"
                  +:+ "?" +:+ urlencode urllib [("key_token", key_token)])),
          w3, (t1 ++ t2 ++ [EvCall (CreateToken uid)])%list)).
Proof.
  intros Hr Hu.
  split; intros x w3 Hc;
    rewrite (run_callback_with_token code w _ Hr), Hu, Hc; reflexivity.
Qed.

End CallbackFacts.

(** ** Two logins with the same email *)

Section StoreFacts.

Import Store.

Variable settings : Settings.
Variable urllib : UrlLib.
Variable request : Request.
Variable E : Env.

Local Abbreviation callback := (google_callback settings urllib request).
Local Abbreviation get_token code :=
  (GoogleGetToken code (google_client_id settings) (google_client_secret settings)
     (url_for request "google_callback")).

Lemma find_app {A} (f : A -> bool) (l k : list A) :
  find f (l ++ k) = match find f l with Some x => Some x | None => find f k end.
Proof.
  induction l as [|x l IH]; simpl; [reflexivity|].
  destruct (f x); [reflexivity | exact IH].
Qed.

(** A lookup right after the creation finds the new row, whatever was
    added after it. *)
Lemma get_user_by_email_created name email db db1 extra toks uid :
  create_user name email db = (inr uid, db1) ->
  exists u,
    get_user_by_email email {| users := users db1 ++ extra; tokens := toks |} = Some u
    /\ user_id u = uid /\ users db1 = (users db ++ [u])%list.
Proof.
  unfold create_user. destruct (get_user_by_email email db) eqn:Hn; [discriminate|].
  intros [= <- <-].
  exists {| user_id := fresh_id db; username := name; user_email := email |}.
  split; [|split; reflexivity].
  unfold get_user_by_email in *. cbn [users].
  rewrite <- app_assoc, find_app, Hn. simpl.
  rewrite bool_decide_eq_true_2 by reflexivity. reflexivity.
Qed.

Lemma run_find_or_create user_info email domain db :
  run (env_handler E) (find_or_create user_info email domain) db =
  match get_user_by_email email db with
  | Some u => (inr (user_id u), db, [EvCall (GetUserByEmail email)])
  | None =>
      match dict_getitem user_info "name" with
      | inl e => (inl e, db, [EvCall (GetUserByEmail email)])
      | inr name =>
          (fst (create_user name email db), snd (create_user name email db),
           EvCall (GetUserByEmail email) :: EvCall (CreateUser name email)
           :: match fst (create_user name email db) with
              | inr _ => [EvLog INFO ("Created new user: xxxx@" +:+ domain)]
              | inl _ => []
              end)
      end
  end.
Proof.
  unfold find_or_create. rewrite run_bind, run_call. cbn [env_handler fst snd].
  destruct (get_user_by_email email db) as [u|]; [reflexivity|].
  rewrite run_bind, run_lift.
  destruct (dict_getitem user_info "name") as [e|name]; [reflexivity|].
  rewrite run_bind, run_call. cbn [env_handler fst snd].
  destruct (create_user name email db) as [[e|uid] db1]; reflexivity.
Qed.

(** What a successful login looks like in this environment: the profile
    was fetched, the user found or created, the token recorded. *)
Lemma successful_login code db url db1 t access_token user_info email :
  provider_token E code = inr access_token ->
  provider_profile E access_token = inr user_info ->
  user_info !! "email" = Some email ->
  run (env_handler E) (callback (Some code)) db = (inr (RedirectResponse url), db1, t) ->
  exists domain uid db' t' key_token,
    run (env_handler E) (find_or_create user_info email domain) db = (inr uid, db', t')
    /\ users db1 = users db'
    /\ t = ([EvCall (get_token code);
             EvLog INFO "Success to retrieve access token from Google API.";
             EvCall (GoogleGetUserInfo access_token)]
            ++ t' ++ [EvCall (CreateToken uid)])%list
    /\ issue_token E uid = inr key_token.
Proof.
  intros Ht Hp He Hrun.
  assert (Hg : env_handler E _ (get_token code) db = (inr access_token, db))
    by (cbn [env_handler]; rewrite Ht; reflexivity).
  assert (Hi : env_handler E _ (GoogleGetUserInfo access_token) db = (inr user_info, db))
    by (cbn [env_handler]; rewrite Hp; reflexivity).
  rewrite (run_callback_with_token _ _ _ _ code db _ (run_retrieve_ok _ _ _ _ _ _ _ Hg)) in Hrun.
  rewrite (run_resolve_user _ _ _ _ _ Hi) in Hrun.
  unfold dict_getitem in Hrun at 1. rewrite He in Hrun.
  destruct (split_at email) as [?|parts]; [discriminate|].
  destruct (getitem parts 1) as [?|domain]; [discriminate|].
  destruct (dict_getitem user_info "verified_email") as [?|verified]; [discriminate|].
  destruct (negb (truthy verified)); [discriminate|].
  destruct (run (env_handler E) (find_or_create user_info email domain) db)
    as [[[?|uid] db'] t'] eqn:Hf; [discriminate|].
  cbn [env_handler] in Hrun. unfold create_token in Hrun.
  destruct (issue_token E uid) as [?|key_token] eqn:Hk; [discriminate|].
  injection Hrun as _ <- <-.
  exists domain, uid, db', t', key_token.
  split; [exact Hf | repeat split; solve [reflexivity | exact Hk]].
Qed.

(** [is_authenticated] only reads: whatever the header, the tables are
    as they were. *)
Lemma is_authenticated_keeps_the_stores (UserModelDTO : Type)
    (model_validate : UserModel -> exn + UserModelDTO)
    (authorization : option string) (db : Db) :
  snd (fst (run (env_handler E)
              (is_authenticated settings UserModelDTO model_validate authorization) db))
  = db.
Proof.
  destruct authorization as [a|]; [|reflexivity].
  unfold is_authenticated. rewrite run_bind, run_lift.
  destruct (extract_token a) as [e|tok]; [reflexivity|].
  rewrite run_bind. unfold decode_payload. rewrite run_try_except, run_call.
  cbn [env_handler fst snd].
  destruct (jwt_decode E tok) as [e|payload].
  - destruct e; reflexivity.
  - rewrite run_bind, run_lift.
    destruct (dict_getitem payload "user_id") as [e|uid]; [reflexivity|].
    rewrite run_bind, run_call. cbn [env_handler fst snd].
    destruct (get_user uid db) as [u|]; [|reflexivity].
    rewrite run_lift. reflexivity.
Qed.

Lemma get_user_by_email_users email db db' :
  users db = users db' -> get_user_by_email email db = get_user_by_email email db'.
Proof. unfold get_user_by_email. intros ->. reflexivity. Qed.

(** C3: two successful logins whose profiles carry the same email, which no
    user had before the first one: the first creates the user, the second
    (run after the first, other users possibly added in between) finds
    that user, asks the token for the same id and adds no row to the
    users table. *)
Theorem second_login_resolves_same_user
    (c1 c2 : string) (db db1 db1' db2 : Db) (url1 url2 : string)
    (t1 t2 : list event) (at1 at2 : string) (info1 info2 : dict)
    (email : value) (extra : list UserModel) :
  provider_token E c1 = inr at1 -> provider_profile E at1 = inr info1 ->
  info1 !! "email" = Some email ->
  provider_token E c2 = inr at2 -> provider_profile E at2 = inr info2 ->
  info2 !! "email" = Some email ->
  get_user_by_email email db = None ->
  run (env_handler E) (callback (Some c1)) db = (inr (RedirectResponse url1), db1, t1) ->
  users db1' = (users db1 ++ extra)%list ->
  run (env_handler E) (callback (Some c2)) db1' = (inr (RedirectResponse url2), db2, t2) ->
  exists U1,
    resolved_user t1 = Some U1
    /\ resolved_user t2 = Some U1
    /\ existsb is_create_user t1 = true
    /\ existsb is_create_user t2 = false
    /\ users db2 = users db1'
    /\ exists u, get_user_by_email email db2 = Some u /\ user_id u = U1.
Proof.
  intros Ht1 Hp1 He1 Ht2 Hp2 He2 Hnew Hrun1 Hext Hrun2.
  destruct (successful_login _ _ _ _ _ _ _ _ Ht1 Hp1 He1 Hrun1)
    as (dom1 & uid1 & db' & t1' & k1 & Hf1 & Hu1 & -> & _).
  destruct (successful_login _ _ _ _ _ _ _ _ Ht2 Hp2 He2 Hrun2)
    as (dom2 & uid2 & db2' & t2' & k2 & Hf2 & Hu2 & -> & _).
  rewrite run_find_or_create, Hnew in Hf1.
  destruct (dict_getitem info1 "name") as [?|name]; [discriminate|].
  destruct (create_user name email db) as [[?|uid] dbc] eqn:Hc; [discriminate|].
  cbn [fst snd] in Hf1. injection Hf1 as -> -> <-.
  destruct (get_user_by_email_created name email db db' extra (tokens db1') uid1 Hc)
    as (u & Hlook & Hid & _).
  assert (Hlook' : get_user_by_email email db1' = Some u).
  { rewrite <- Hlook. apply get_user_by_email_users. cbn [users].
    rewrite Hext, Hu1. reflexivity. }
  rewrite run_find_or_create, Hlook' in Hf2. injection Hf2 as <- <- <-.
  exists uid1. rewrite Hid.
  split; [reflexivity|]. split; [reflexivity|]. split; [reflexivity|].
  split; [reflexivity|]. split; [exact Hu2|].
  exists u. split; [|exact Hid].
  rewrite <- Hlook'. apply get_user_by_email_users. exact Hu2.
Qed.

End StoreFacts.

(** ** The code at work on a concrete deployment *)

Section DemoRuns.

Import Store Demo.

Lemma string_app_assoc (a b c : string) : (a +:+ b) +:+ c = a +:+ (b +:+ c).
Proof.
  induction a as [|x a IH]; [reflexivity|].
  change (String x ((a +:+ b) +:+ c) = String x (a +:+ (b +:+ c))).
  rewrite IH. reflexivity.
Qed.

Lemma string_app_nil_r (a : string) : a +:+ EmptyString = a.
Proof.
  induction a as [|x a IH]; [reflexivity|].
  change (String x (a +:+ EmptyString) = String x a).
  rewrite IH. reflexivity.
Qed.

Lemma demo_google_contract : auth_url_contract google.
Proof.
  intros cid uri. split.
  - exists "https://accounts.example/o/oauth2/auth?client_id=", ("&redirect_uri=" +:+ uri).
    reflexivity.
  - exists ("https://accounts.example/o/oauth2/auth?client_id=" +:+ cid +:+ "&redirect_uri="),
      EmptyString.
    rewrite string_app_nil_r. cbn [auth_url google].
    rewrite !string_app_assoc. reflexivity.
Qed.

Local Abbreviation callback := (google_callback settings urllib request).
Local Abbreviation authenticate := (is_authenticated settings UserModel inr).
Local Abbreviation outcome r := (fst (fst r)).

Lemma google_login_outcomes_witness :
  outcome (run (env_handler env) (google_login settings_no_secret google request) empty_db)
  = inr (JSONResponse 500
           (json_err_content 500 "Internal Server Error"
              "client_id or client_secret not found to create URL for Google login."))
  /\ outcome (run (env_handler env) (google_login settings google request) empty_db)
     = inr (RedirectResponse
              (auth_url google "cid-123" "https://api.example/api/auth/google/callback"))
  /\ substring_of "cid-123"
       (auth_url google "cid-123" "https://api.example/api/auth/google/callback")
  /\ substring_of "https://api.example/api/auth/google/callback"
       (auth_url google "cid-123" "https://api.example/api/auth/google/callback").
Proof.
  split.
  - destruct (google_login_outcomes settings_no_secret google request
                (env_handler env) empty_db demo_google_contract) as [Hmiss _].
    destruct (Hmiss (or_intror eq_refl)) as [t Ht]. rewrite Ht. reflexivity.
  - destruct (google_login_outcomes settings google request
                (env_handler env) empty_db demo_google_contract) as [_ Hok].
    destruct (Hok "cid-123" "s3cr3t" eq_refl eq_refl) as (Hrun & Hcid & Huri).
    rewrite Hrun. split; [reflexivity | split; assumption].
Defined.

Local Abbreviation get_token code :=
  (GoogleGetToken code (Some "cid-123") (Some "s3cr3t")
     "https://api.example/api/auth/google/callback").
Local Abbreviation token_ok := (EvLog INFO "Success to retrieve access token from Google API.").
Local Abbreviation decode tok := (JwtDecode tok "k" ["HS256"]).

(** C1: the provider is unreachable when the profile is fetched
    ([get_user_info] raises a connection error).  [google_callback] ends
    with that very exception: nothing on lines 96-104 catches it, whereas
    the token exchange just above sits in a [try]. *)
Theorem profile_fetch_failure_escapes :
  run (env_handler env) (callback (Some "gone")) empty_db =
  (inl (OtherError "httpx.ConnectError"), empty_db,
   [EvCall (get_token "gone"); token_ok; EvCall (GoogleGetUserInfo "at-gone")]).
Proof.
  apply (profile_fetch_exception_propagates settings urllib request (env_handler env)
           "gone" empty_db "at-gone" empty_db); reflexivity.
Qed.

(** C4: a profile that is not verified and whose email has no [@].
    [google_callback] ends with [IndexError] from line 98, not with
    [NotVerifiedEmailError]; no call touched the stores, which are as they
    were. *)
Theorem unverified_email_without_at_raises_IndexError :
  provider_profile env "at-nodomain" = inr (profile "nodomain" false)
  /\ run (env_handler env) (callback (Some "nodomain")) empty_db =
     (inl IndexError, empty_db,
      [EvCall (get_token "nodomain"); token_ok; EvCall (GoogleGetUserInfo "at-nodomain")])
  /\ existsb touches_store
       (snd (run (env_handler env) (callback (Some "nodomain")) empty_db)) = false.
Proof. repeat split; vm_compute; reflexivity. Qed.

(** C2, as stated, fails: the login reaches line 117 with user 1 resolved,
    the token table is unreachable, and the client gets no redirect (with
    the table reachable, the same login is redirected with the token). *)
Lemma token_record_failure_alters_outcome :
  (exists db2 t2,
      run (env_handler env_token_store_down) (resolve_user "at-alice") empty_db
      = (inr 1, db2, t2)
      /\ fst (env_handler env_token_store_down _ (CreateToken 1) db2)
         = inl (OtherError "sqlalchemy.exc.OperationalError"))
  /\ outcome (run (env_handler env) (callback (Some "alice")) empty_db)
     = inr (RedirectResponse "https://web.example/callback?key_token=jwt-1")
  /\ outcome (run (env_handler env_token_store_down) (callback (Some "alice")) empty_db)
     = inl (OtherError "sqlalchemy.exc.OperationalError")
  /\ ~ exists url,
        outcome (run (env_handler env_token_store_down) (callback (Some "alice")) empty_db)
        = inr (RedirectResponse url).
Proof.
  split; [|split; [|split]].
  - eexists _, _. split; vm_compute; reflexivity.
  - vm_compute. reflexivity.
  - vm_compute. reflexivity.
  - intros [url H]. vm_compute in H. discriminate.
Qed.

Lemma create_token_decides_outcome_witness :
  outcome (run (env_handler env_token_store_down) (callback (Some "alice")) empty_db)
  = inl (OtherError "sqlalchemy.exc.OperationalError")
  /\ outcome (run (env_handler env) (callback (Some "alice")) empty_db)
     = inr (RedirectResponse "https://web.example/callback?key_token=jwt-1").
Proof.
  split.
  - destruct (create_token_decides_outcome settings urllib request
                (env_handler env_token_store_down)
                "alice" empty_db "at-alice" empty_db
                [EvCall (get_token "alice"); token_ok]
                1 {| users := [alice]; tokens := [] |}
                [EvCall (GoogleGetUserInfo "at-alice");
                 EvCall (GetUserByEmail (VStr "alice@example.com"));
                 EvCall (CreateUser (VStr "Alice") (VStr "alice@example.com"));
                 EvLog INFO "Created new user: xxxx@example.com"])
      as [Hfail _]; [vm_compute; reflexivity | vm_compute; reflexivity |].
    rewrite (Hfail (OtherError "sqlalchemy.exc.OperationalError")
               {| users := [alice]; tokens := [] |}); reflexivity.
  - destruct (create_token_decides_outcome settings urllib request
                (env_handler env)
                "alice" empty_db "at-alice" empty_db
                [EvCall (get_token "alice"); token_ok]
                1 {| users := [alice]; tokens := [] |}
                [EvCall (GoogleGetUserInfo "at-alice");
                 EvCall (GetUserByEmail (VStr "alice@example.com"));
                 EvCall (CreateUser (VStr "Alice") (VStr "alice@example.com"));
                 EvLog INFO "Created new user: xxxx@example.com"])
      as [_ Hok]; [vm_compute; reflexivity | vm_compute; reflexivity |].
    rewrite (Hok "jwt-1" {| users := [alice]; tokens := [(1, "jwt-1")] |});
      reflexivity.
Defined.

Lemma second_login_resolves_same_user_witness :
  exists U1,
    resolved_user
      (snd (run (env_handler env) (callback (Some "alice")) empty_db)) = Some U1
    /\ resolved_user
         (snd (run (env_handler env) (callback (Some "alice2"))
                 {| users := [alice]; tokens := [(1, "jwt-1")] |})) = Some U1
    /\ users (snd (fst (run (env_handler env) (callback (Some "alice2"))
                          {| users := [alice]; tokens := [(1, "jwt-1")] |})))
       = [alice].
Proof.
  destruct (second_login_resolves_same_user settings urllib request env
              "alice" "alice2" empty_db
              {| users := [alice]; tokens := [(1, "jwt-1")] |}
              {| users := [alice]; tokens := [(1, "jwt-1")] |}
              {| users := [alice]; tokens := [(1, "jwt-1"); (1, "jwt-1")] |}
              "https://web.example/callback?key_token=jwt-1"
              "https://web.example/callback?key_token=jwt-1"
              [EvCall (get_token "alice"); token_ok;
               EvCall (GoogleGetUserInfo "at-alice");
               EvCall (GetUserByEmail (VStr "alice@example.com"));
               EvCall (CreateUser (VStr "Alice") (VStr "alice@example.com"));
               EvLog INFO "Created new user: xxxx@example.com";
               EvCall (CreateToken 1)]
              [EvCall (get_token "alice2"); token_ok;
               EvCall (GoogleGetUserInfo "at-alice2");
               EvCall (GetUserByEmail (VStr "alice@example.com"));
               EvCall (CreateToken 1)]
              "at-alice" "at-alice2"
              (profile "alice@example.com" true) (profile "alice@example.com" true)
              (VStr "alice@example.com") [])
    as (U1 & H1 & H2 & _ & _ & Hu & _); try (vm_compute; reflexivity).
  exists U1. split; [|split].
  - rewrite <- H1. vm_compute. reflexivity.
  - rewrite <- H2. vm_compute. reflexivity.
  - vm_compute. reflexivity.
Defined.


Lemma credential_is_last_token_witness :
  has_nonspace "Bearer abc.def.ghi"
  /\ (exists tok, last_token "Bearer abc.def.ghi" tok
                  /\ extract_token "Bearer abc.def.ghi" = inr tok
                  /\ exists rest,
                      snd (run (env_handler env)
                             (authenticate (Some "Bearer abc.def.ghi")) db_alice)
                      = EvCall (decode tok) :: rest)
  /\ extract_token ("Bearer " +:+ "abc.def.ghi") = inr "abc.def.ghi"
  /\ extract_token "abc.def.ghi" = inr "abc.def.ghi"
  /\ run (env_handler env) (authenticate (Some ("Bearer " +:+ "jwt-1"))) db_alice
     = run (env_handler env) (authenticate (Some "jwt-1")) db_alice
  /\ run (env_handler env) (authenticate (Some ("Bearer " +:+ "jwt-1"))) db_alice
     = (inr alice, db_alice, [EvCall (decode "jwt-1"); EvCall (GetUser (VInt 1))])
  /\ run (env_handler env) (authenticate (Some "jwt-1")) db_alice
     = (inr alice, db_alice, [EvCall (decode "jwt-1"); EvCall (GetUser (VInt 1))]).
Proof.
  assert (Hns : has_nonspace "Bearer abc.def.ghi")
    by (exists "B"%char; split; [left; reflexivity | reflexivity]).
  destruct (credential_is_last_token settings UserModel inr (env_handler env))
    as [Hlast Hbearer].
  split; [exact Hns|]. split.
  { destruct (Hlast "Bearer abc.def.ghi" Hns) as (tok & Hl & _ & He & Hcall).
    exists tok. split; [exact Hl|]. split; [exact He|]. apply (Hcall db_alice). }
  destruct (Hbearer "abc.def.ghi") as (Hb & Hp & _);
    [discriminate | reflexivity |].
  split; [exact Hb|]. split; [exact Hp|].
  destruct (Hbearer "jwt-1") as (_ & _ & _ & Hrun & _ & Huser);
    [discriminate | reflexivity |].
  split; [apply Hrun|].
  apply (Huser db_alice {[ "user_id" := VInt 1 ]} (VInt 1) alice alice db_alice db_alice);
    reflexivity.
Defined.

Lemma blank_header_raises_IndexError_witness :
  blank "   "
  /\ run (env_handler env) (authenticate (Some "   ")) db_alice
     = (inl IndexError, db_alice, []).
Proof.
  split; [reflexivity|].
  apply (blank_header_raises_IndexError settings UserModel inr (env_handler env)
           "   " db_alice).
  reflexivity.
Defined.

Lemma email_without_at_raises_IndexError_witness :
  run (env_handler env) (callback (Some "nodomain")) empty_db =
  (inl IndexError, empty_db,
   [EvCall (get_token "nodomain"); token_ok; EvCall (GoogleGetUserInfo "at-nodomain")]).
Proof.
  apply (email_without_at_raises_IndexError settings urllib request (env_handler env)
           "nodomain" empty_db "at-nodomain" empty_db
           (profile "nodomain" false) empty_db "nodomain").
  - reflexivity.
  - reflexivity.
  - vm_compute. reflexivity.
  - vm_compute. intros H. repeat (destruct H as [H|H]; [discriminate|]). exact H.
Defined.

Lemma missing_user_id_raises_KeyError_witness :
  run (env_handler env) (authenticate (Some "Bearer jwt-nosub")) db_alice =
  (inl (KeyError "user_id"), db_alice, [EvCall (decode "jwt-nosub")]).
Proof.
  apply (missing_user_id_raises_KeyError settings UserModel inr (env_handler env)
           "Bearer jwt-nosub" "jwt-nosub" {[ "exp" := VInt 4102444800 ]}
           db_alice db_alice).
  - reflexivity.
  - reflexivity.
  - vm_compute. reflexivity.
Defined.

End DemoRuns.

(** * Further properties of the code *)

(** ** [google_callback], path by path *)

Lemma split_on_present (sep : ascii) (s : list ascii) :
  In sep s -> exists p q ps, split_on sep s = p :: q :: ps.
Proof.
  induction s as [|c s IH]; simpl; [contradiction|].
  intros Hin. destruct (Ascii.eqb c sep) eqn:E.
  - destruct (split_on sep s) as [|q ps] eqn:Es.
    + destruct s; simpl in Es; [discriminate|].
      destruct (Ascii.eqb a sep); [discriminate|].
      destruct (split_on sep s); discriminate.
    + eexists _, _, _. reflexivity.
  - destruct Hin as [->|Hin]; [rewrite Ascii.eqb_refl in E; discriminate|].
    destruct (IH Hin) as (p & q & ps & ->). eexists _, _, _. reflexivity.
Qed.

Lemma getitem_second {A} (x y : A) (l : list A) : getitem (x :: y :: l) 1 = inr y.
Proof.
  unfold getitem. change (1 <? 0) with false. cbv iota.
  replace (Z.of_nat (length (x :: y :: l)) <=? 1) with false
    by (symmetry; apply Z.leb_gt; simpl length; lia).
  reflexivity.
Qed.

(** An email with an [@] has a domain part, one without has none. *)
Lemma domain_exists_iff_at (email : string) :
  (exists domain, getitem (split email "@") 1 = inr domain)
  <-> In "@"%char (list_ascii_of_string email).
Proof.
  split.
  - intros [domain Hd].
    destruct (in_dec ascii_dec "@"%char (list_ascii_of_string email)) as [Hin|Hn];
      [exact Hin|].
    destruct (domain_of_email_without_at email Hn) as [Hs Hi].
    injection Hs as Hs. rewrite Hs, Hi in Hd. discriminate.
  - intros Hin. unfold split.
    destruct (split_on_present _ _ Hin) as (p & q & ps & ->).
    eexists. cbn [map]. apply getitem_second.
Qed.

Section CallbackPaths.

Variable settings : Settings.
Variable urllib : UrlLib.
Variable request : Request.
Context {W : Type}.
Variable h : handler W.

Local Abbreviation callback := (google_callback settings urllib request).
Local Abbreviation get_token code :=
  (GoogleGetToken code (google_client_id settings) (google_client_secret settings)
     (url_for request "google_callback")).
Local Abbreviation token_ok := (EvLog INFO "Success to retrieve access token from Google API.").
Local Abbreviation token_failed := (EvLog ERROR "Failed to retrieve access token for Google login.").
Local Abbreviation redirect key_token :=
  (RedirectResponse
     (urljoin urllib (web_url settings) "callback"
      +:+ "?" +:+ urlencode urllib [("key_token", key_token)])).

Lemma run_retrieve code w :
  run h (retrieve_access_token settings request code) w =
  let '(x, w1) := h _ (get_token code) w in
  match x with
  | inr access_token => (inr (inr access_token), w1, [EvCall (get_token code); token_ok])
  | inl FaildRetrieveAccessTokenError =>
      (inr (inl (JSONResponse 400
                   (json_err_content 400 "Bad Request"
                      "Failed to retrieve the access token for Google login."))),
       w1, [EvCall (get_token code); token_failed])
  | inl e => (inl e, w1, [EvCall (get_token code)])
  end.
Proof.
  unfold retrieve_access_token. rewrite run_try_except, run_bind, run_call.
  destruct (h _ (get_token code) w) as [[e|access_token] w1]; cbn [fst snd].
  - destruct e; reflexivity.
  - reflexivity.
Qed.

Lemma run_find_or_create_any user_info email domain w :
  run h (find_or_create user_info email domain) w =
  let '(x, w1) := h _ (GetUserByEmail email) w in
  match x with
  | inl e => (inl e, w1, [EvCall (GetUserByEmail email)])
  | inr (Some user) => (inr (user_id user), w1, [EvCall (GetUserByEmail email)])
  | inr None =>
      match dict_getitem user_info "name" with
      | inl e => (inl e, w1, [EvCall (GetUserByEmail email)])
      | inr name =>
          let '(y, w2) := h _ (CreateUser name email) w1 in
          match y with
          | inl e =>
              (inl e, w2,
               [EvCall (GetUserByEmail email); EvCall (CreateUser name email)])
          | inr uid =>
              (inr uid, w2,
               [EvCall (GetUserByEmail email); EvCall (CreateUser name email);
                EvLog INFO ("Created new user: xxxx@" +:+ domain)])
          end
      end
  end.
Proof.
  unfold find_or_create. rewrite run_bind, run_call.
  destruct (h _ (GetUserByEmail email) w) as [[e|[user|]] w1]; cbn [fst snd];
    try reflexivity.
  rewrite run_bind, run_lift.
  destruct (dict_getitem user_info "name") as [e|name]; [reflexivity|].
  rewrite run_bind, run_call.
  destruct (h _ (CreateUser name email) w1) as [[e|uid] w2]; reflexivity.
Qed.

(** The whole of [google_callback] on a code, as one case analysis on what
    the collaborators answer. *)
Lemma run_callback_some code w :
  run h (callback (Some code)) w =
  let '(x, w1) := h _ (get_token code) w in
  match x with
  | inl FaildRetrieveAccessTokenError =>
      (inr (JSONResponse 400
              (json_err_content 400 "Bad Request"
                 "Failed to retrieve the access token for Google login.")),
       w1, [EvCall (get_token code); token_failed])
  | inl e => (inl e, w1, [EvCall (get_token code)])
  | inr access_token =>
      let pre := [EvCall (get_token code); token_ok;
                  EvCall (GoogleGetUserInfo access_token)] in
      let '(y, w2) := h _ (GoogleGetUserInfo access_token) w1 in
      match y with
      | inl e => (inl e, w2, pre)
      | inr user_info =>
          match dict_getitem user_info "email" with
          | inl e => (inl e, w2, pre)
          | inr user_email =>
              match split_at user_email with
              | inl e => (inl e, w2, pre)
              | inr parts =>
                  match getitem parts 1 with
                  | inl e => (inl e, w2, pre)
                  | inr domain =>
                      match dict_getitem user_info "verified_email" with
                      | inl e => (inl e, w2, pre)
                      | inr verified =>
                          if negb (truthy verified) then
                            (inl (NotVerifiedEmailError 400
                                    "Your google is not verified email address."),
                             w2, pre)
                          else
                            let '(r, w3, t) :=
                              run h (find_or_create user_info user_email domain) w2 in
                            match r with
                            | inl e => (inl e, w3, (pre ++ t)%list)
                            | inr uid =>
                                let '(z, w4) := h _ (CreateToken uid) w3 in
                                (match z with
                                 | inl e => inl e
                                 | inr key_token => inr (redirect key_token)
                                 end, w4,
                                 (pre ++ t ++ [EvCall (CreateToken uid)])%list)
                            end
                      end
                  end
              end
          end
      end
  end.
Proof.
  rewrite (run_callback_with_token settings urllib request h code w _ eq_refl).
  rewrite run_retrieve.
  destruct (h _ (get_token code) w) as [[e|access_token] w1].
  - destruct e; reflexivity.
  - unfold resolve_user. rewrite run_bind, run_call.
    destruct (h _ (GoogleGetUserInfo access_token) w1) as [[e|user_info] w2];
      cbn [fst snd]; [reflexivity|].
    rewrite run_bind, run_lift.
    destruct (dict_getitem user_info "email") as [e|user_email]; [reflexivity|].
    rewrite run_bind, run_lift.
    destruct (split_at user_email) as [e|parts]; [reflexivity|].
    rewrite run_bind, run_lift.
    destruct (getitem parts 1) as [e|domain]; [reflexivity|].
    rewrite run_bind, run_lift.
    destruct (dict_getitem user_info "verified_email") as [e|verified]; [reflexivity|].
    destruct (negb (truthy verified)); [reflexivity|].
    destruct (run h (find_or_create user_info user_email domain) w2)
      as [[[e|uid] w3] t]; [reflexivity|].
    destruct (h _ (CreateToken uid) w3) as [[e|key_token] w4]; reflexivity.
Qed.

End CallbackPaths.

Ltac callback_eval :=
  rewrite run_callback_some;
  repeat match goal with
         | H : _ = (_, _) |- _ => rewrite H; cbv beta iota zeta
         end.

Section CallbackExtras.

Variable settings : Settings.
Variable urllib : UrlLib.
Variable request : Request.
Context {W : Type}.
Variable h : handler W.

Local Abbreviation callback := (google_callback settings urllib request).
Local Abbreviation get_token code :=
  (GoogleGetToken code (google_client_id settings) (google_client_secret settings)
     (url_for request "google_callback")).
Local Abbreviation token_ok := (EvLog INFO "Success to retrieve access token from Google API.").
Local Abbreviation token_failed := (EvLog ERROR "Failed to retrieve access token for Google login.").
Local Abbreviation redirect key_token :=
  (RedirectResponse
     (urljoin urllib (web_url settings) "callback"
      +:+ "?" +:+ urlencode urllib [("key_token", key_token)])).

(** X2: When [google.get_token] raises [FaildRetrieveAccessTokenError], the
    [except] clause of lines 85-94 answers with the 400 JSON body and logs
    the error; the profile is not fetched and no DAO is called. *)
Theorem token_exchange_failure_is_bad_request code w w1 :
  h _ (get_token code) w = (inl FaildRetrieveAccessTokenError, w1) ->
  run h (callback (Some code)) w =
  (inr (JSONResponse 400
          {| status := 400; error := "Bad Request";
             message := "Failed to retrieve the access token for Google login." |}),
   w1, [EvCall (get_token code); token_failed]).
Proof. intros Ht. callback_eval. reflexivity. Qed.

(** X3: The [except] clause catches [FaildRetrieveAccessTokenError] only: any
    other exception of [google.get_token] leaves [google_callback] as it
    is, and nothing is logged after the call. *)
Theorem token_exchange_other_exception_propagates code w e w1 :
  h _ (get_token code) w = (inl e, w1) ->
  e <> FaildRetrieveAccessTokenError ->
  run h (callback (Some code)) w = (inl e, w1, [EvCall (get_token code)]).
Proof.
  intros Ht Hne. callback_eval. destruct e; try reflexivity. contradiction.
Qed.

(** X4: Every JSON answer of [google_callback] is a 400, given before any
    access token was obtained: the code is missing, or the token exchange
    raised [FaildRetrieveAccessTokenError].  No call touched the stores. *)
Theorem json_response_means_no_access_token code w st content w' t :
  run h (callback code) w = (inr (JSONResponse st content), w', t) ->
  st = 400 /\ status content = 400 /\ error content = "Bad Request"
  /\ existsb touches_store t = false
  /\ ((code = None /\ w' = w)
      \/ exists code', code = Some code'
           /\ h _ (get_token code') w = (inl FaildRetrieveAccessTokenError, w')).
Proof.
  destruct code as [code|].
  - rewrite run_callback_some.
    destruct (h _ (get_token code) w) as [[e|access_token] w1] eqn:Ht.
    + destruct e; try discriminate. intros [= <- <- <- <-].
      repeat split; try reflexivity. right. exists code.
      split; [reflexivity | exact Ht].
    + cbv zeta.
      destruct (h _ (GoogleGetUserInfo access_token) w1) as [[e|user_info] w2];
        [discriminate|].
      destruct (dict_getitem user_info "email") as [e|user_email]; [discriminate|].
      destruct (split_at user_email) as [e|parts]; [discriminate|].
      destruct (getitem parts 1) as [e|domain]; [discriminate|].
      destruct (dict_getitem user_info "verified_email") as [e|verified]; [discriminate|].
      destruct (negb (truthy verified)); [discriminate|].
      destruct (run h (find_or_create user_info user_email domain) w2)
        as [[[e|uid] w3] t']; [discriminate|].
      destruct (h _ (CreateToken uid) w3) as [[e|key_token] w4]; discriminate.
  - simpl. intros [= <- <- <- <-]. repeat split; try reflexivity. left. split; reflexivity.
Qed.

(** X5: A profile without [email], with an [email] that is not a string, or
    with a usable email but without [verified_email], ends the call with
    [KeyError], [AttributeError] and [KeyError]: lines 97-100 index the
    dict without a default.  No DAO is called. *)
Theorem malformed_profile_raises code w access_token w1 user_info w2 :
  h _ (get_token code) w = (inr access_token, w1) ->
  h _ (GoogleGetUserInfo access_token) w1 = (inr user_info, w2) ->
  let pre := [EvCall (get_token code); token_ok;
              EvCall (GoogleGetUserInfo access_token)] in
  (user_info !! "email" = None ->
   run h (callback (Some code)) w = (inl (KeyError "email"), w2, pre))
  /\ (forall v, user_info !! "email" = Some v -> (forall s, v <> VStr s) ->
      run h (callback (Some code)) w = (inl AttributeError, w2, pre))
  /\ (forall email, user_info !! "email" = Some (VStr email) ->
      In "@"%char (list_ascii_of_string email) ->
      user_info !! "verified_email" = None ->
      run h (callback (Some code)) w = (inl (KeyError "verified_email"), w2, pre)).
Proof.
  intros Ht Hp pre. split; [|split].
  - intros He. callback_eval. unfold dict_getitem. rewrite He. reflexivity.
  - intros v He Hv. callback_eval. unfold dict_getitem at 1. rewrite He.
    destruct v; try reflexivity. exfalso. apply (Hv s). reflexivity.
  - intros email He Hat Hv. callback_eval.
    apply domain_exists_iff_at in Hat as [domain Hd].
    unfold dict_getitem. rewrite He. cbn [split_at]. rewrite Hd, Hv. reflexivity.
Qed.

(** X7: A call of [google_callback] that reached a DAO had fetched a profile
    whose email is a string with an [@] and whose [verified_email] is
    true: no user is looked up or created, and no token recorded, for
    an email that is not verified. *)
Theorem stores_touched_only_for_verified_email code w r w' t :
  run h (callback code) w = (r, w', t) ->
  existsb touches_store t = true ->
  exists code' access_token w1 user_info w2 email verified,
    code = Some code'
    /\ h _ (get_token code') w = (inr access_token, w1)
    /\ h _ (GoogleGetUserInfo access_token) w1 = (inr user_info, w2)
    /\ user_info !! "email" = Some (VStr email)
    /\ In "@"%char (list_ascii_of_string email)
    /\ user_info !! "verified_email" = Some verified
    /\ truthy verified = true.
Proof.
  destruct code as [code|]; [|intros [= <- <- <-]; discriminate].
  rewrite run_callback_some.
  destruct (h _ (get_token code) w) as [[e|access_token] w1] eqn:Ht.
  { destruct e; intros [= <- <- <-]; discriminate. }
  cbv zeta.
  destruct (h _ (GoogleGetUserInfo access_token) w1) as [[e|user_info] w2] eqn:Hp;
    [intros [= <- <- <-]; discriminate|].
  unfold dict_getitem at 1.
  destruct (user_info !! "email") as [user_email|] eqn:He;
    [|intros [= <- <- <-]; discriminate].
  destruct user_email as [| |n|email]; cbn [split_at];
    try (intros [= <- <- <-]; discriminate).
  destruct (getitem (split email "@") 1) as [e|domain] eqn:Hd;
    [intros [= <- <- <-]; discriminate|].
  unfold dict_getitem at 1.
  destruct (user_info !! "verified_email") as [verified|] eqn:Hv;
    [|intros [= <- <- <-]; discriminate].
  destruct (truthy verified) eqn:Hf; cbn [negb];
    [|intros [= <- <- <-]; discriminate].
  intros _ _.
  exists code, access_token, w1, user_info, w2, email, verified.
  repeat split; try assumption; try reflexivity.
  apply domain_exists_iff_at. exists domain. exact Hd.
Qed.

(** X6: A profile whose email has a domain part and is not verified ends the
    call with [NotVerifiedEmailError] (status 400) right after the profile
    fetch; no DAO is called. *)
Theorem unverified_email_gets_NotVerifiedEmailError code w access_token w1
    user_info w2 email verified :
  h _ (get_token code) w = (inr access_token, w1) ->
  h _ (GoogleGetUserInfo access_token) w1 = (inr user_info, w2) ->
  user_info !! "email" = Some (VStr email) ->
  In "@"%char (list_ascii_of_string email) ->
  user_info !! "verified_email" = Some verified ->
  truthy verified = false ->
  run h (callback (Some code)) w =
  (inl (NotVerifiedEmailError 400 "Your google is not verified email address."),
   w2,
   [EvCall (get_token code); token_ok; EvCall (GoogleGetUserInfo access_token)]).
Proof.
  intros Ht Hp He Hat Hv Hf.
  apply domain_exists_iff_at in Hat as [domain Hd].
  apply (unverified_email_rejected settings urllib request h code w access_token w1
           user_info w2 (VStr email) (split email "@") domain verified);
    assumption || reflexivity.
Qed.

End CallbackExtras.

(** ** [google_callback]: finding or creating the user *)

Section UserResolution.

Variable settings : Settings.
Variable urllib : UrlLib.
Variable request : Request.
Context {W : Type}.
Variable h : handler W.

Local Abbreviation callback := (google_callback settings urllib request).
Local Abbreviation get_token code :=
  (GoogleGetToken code (google_client_id settings) (google_client_secret settings)
     (url_for request "google_callback")).
Local Abbreviation token_ok := (EvLog INFO "Success to retrieve access token from Google API.").
Local Abbreviation redirect key_token :=
  (RedirectResponse
     (urljoin urllib (web_url settings) "callback"
      +:+ "?" +:+ urlencode urllib [("key_token", key_token)])).

Local Abbreviation good_profile := (good_profile_fetched settings request h).

Lemma run_callback_good_profile code w access_token user_info w2 email domain :
  good_profile code w access_token user_info w2 email domain ->
  run h (callback (Some code)) w =
  let pre := [EvCall (get_token code); token_ok;
              EvCall (GoogleGetUserInfo access_token)] in
  let '(r, w3, t) := run h (find_or_create user_info (VStr email) domain) w2 in
  match r with
  | inl e => (inl e, w3, (pre ++ t)%list)
  | inr uid =>
      let '(z, w4) := h _ (CreateToken uid) w3 in
      (match z with
       | inl e => inl e
       | inr key_token => inr (redirect key_token)
       end, w4, (pre ++ t ++ [EvCall (CreateToken uid)])%list)
  end.
Proof.
  intros (w1 & verified & Ht & Hp & He & Hd & Hv & Hf).
  rewrite run_callback_some, Ht. cbv beta iota zeta. rewrite Hp.
  unfold dict_getitem. rewrite He. cbn [split_at]. rewrite Hd, Hv, Hf.
  reflexivity.
Qed.

(** X9: When the lookup by email finds a user, the token is asked for that
    user's id and the user is not created again; the [name] of the profile
    is not read, so it may be missing. *)
Theorem existing_user_is_not_recreated code w access_token user_info w2 email
    domain user w3 key_token w4 :
  good_profile code w access_token user_info w2 email domain ->
  h _ (GetUserByEmail (VStr email)) w2 = (inr (Some user), w3) ->
  h _ (CreateToken (user_id user)) w3 = (inr key_token, w4) ->
  run h (callback (Some code)) w =
  (inr (redirect key_token), w4,
   [EvCall (get_token code); token_ok; EvCall (GoogleGetUserInfo access_token);
    EvCall (GetUserByEmail (VStr email)); EvCall (CreateToken (user_id user))]).
Proof.
  intros Hg Hu Hc. rewrite (run_callback_good_profile _ _ _ _ _ _ _ Hg).
  rewrite run_find_or_create_any, Hu. cbv beta iota zeta. rewrite Hc. reflexivity.
Qed.

(** X10: When the lookup finds nobody and the profile has no [name],
    [user_info["name"]] raises [KeyError] before [create_user] is called:
    no user is created and no token recorded. *)
Theorem new_user_without_name_raises_KeyError code w access_token user_info w2
    email domain w3 :
  good_profile code w access_token user_info w2 email domain ->
  h _ (GetUserByEmail (VStr email)) w2 = (inr None, w3) ->
  user_info !! "name" = None ->
  run h (callback (Some code)) w =
  (inl (KeyError "name"), w3,
   [EvCall (get_token code); token_ok; EvCall (GoogleGetUserInfo access_token);
    EvCall (GetUserByEmail (VStr email))]).
Proof.
  intros Hg Hu Hn. rewrite (run_callback_good_profile _ _ _ _ _ _ _ Hg).
  rewrite run_find_or_create_any, Hu. cbv beta iota zeta.
  unfold dict_getitem. rewrite Hn. reflexivity.
Qed.

(** X11: An exception of the lookup or of [create_user] (another request
    created the user in between, say) leaves [google_callback] as it is:
    the user is not looked up again and no token is recorded. *)
Theorem user_dao_exceptions_propagate code w access_token user_info w2 email domain :
  good_profile code w access_token user_info w2 email domain ->
  let pre := [EvCall (get_token code); token_ok;
              EvCall (GoogleGetUserInfo access_token);
              EvCall (GetUserByEmail (VStr email))] in
  (forall e w3,
      h _ (GetUserByEmail (VStr email)) w2 = (inl e, w3) ->
      run h (callback (Some code)) w = (inl e, w3, pre))
  /\ (forall name e w3 w4,
         h _ (GetUserByEmail (VStr email)) w2 = (inr None, w3) ->
         user_info !! "name" = Some name ->
         h _ (CreateUser name (VStr email)) w3 = (inl e, w4) ->
         run h (callback (Some code)) w =
         (inl e, w4, (pre ++ [EvCall (CreateUser name (VStr email))])%list)).
Proof.
  intros Hg pre. split.
  - intros e w3 Hu. rewrite (run_callback_good_profile _ _ _ _ _ _ _ Hg).
    rewrite run_find_or_create_any, Hu. reflexivity.
  - intros name e w3 w4 Hu Hn Hc. rewrite (run_callback_good_profile _ _ _ _ _ _ _ Hg).
    rewrite run_find_or_create_any, Hu. cbv beta iota zeta.
    unfold dict_getitem. rewrite Hn, Hc. reflexivity.
Qed.

(** X12: A first login: the user is created with the name and the email of the
    profile, the log line shows the domain of the email and not its local
    part, the token is asked for the id that [create_user] returned, and
    the client is redirected with that token. *)
Theorem first_login_creates_the_user code w access_token user_info w2 email
    domain name uid key_token w3 w4 w5 :
  good_profile code w access_token user_info w2 email domain ->
  h _ (GetUserByEmail (VStr email)) w2 = (inr None, w3) ->
  user_info !! "name" = Some name ->
  h _ (CreateUser name (VStr email)) w3 = (inr uid, w4) ->
  h _ (CreateToken uid) w4 = (inr key_token, w5) ->
  run h (callback (Some code)) w =
  (inr (redirect key_token), w5,
   [EvCall (get_token code); token_ok; EvCall (GoogleGetUserInfo access_token);
    EvCall (GetUserByEmail (VStr email)); EvCall (CreateUser name (VStr email));
    EvLog INFO ("Created new user: xxxx@" +:+ domain);
    EvCall (CreateToken uid)]).
Proof.
  intros Hg Hu Hn Hc Hk. rewrite (run_callback_good_profile _ _ _ _ _ _ _ Hg).
  rewrite run_find_or_create_any, Hu. cbv beta iota zeta.
  unfold dict_getitem. rewrite Hn, Hc. cbv beta iota zeta. rewrite Hk. reflexivity.
Qed.

(** X14: A redirect is only ever answered with a token that
    [token_dao.create_token] returned, and that call is the last thing
    the login did. *)
Theorem redirect_carries_created_token code w url w' t :
  run h (callback code) w = (inr (RedirectResponse url), w', t) ->
  exists uid key_token w3 t0,
    h _ (CreateToken uid) w3 = (inr key_token, w')
    /\ t = (t0 ++ [EvCall (CreateToken uid)])%list
    /\ url = urljoin urllib (web_url settings) "callback"
             +:+ "?" +:+ urlencode urllib [("key_token", key_token)].
Proof.
  destruct code as [code|]; [|discriminate].
  rewrite run_callback_some.
  destruct (h _ (get_token code) w) as [[e|access_token] w1].
  { destruct e; discriminate. }
  cbv zeta.
  destruct (h _ (GoogleGetUserInfo access_token) w1) as [[e|user_info] w2];
    [discriminate|].
  destruct (dict_getitem user_info "email") as [e|user_email]; [discriminate|].
  destruct (split_at user_email) as [e|parts]; [discriminate|].
  destruct (getitem parts 1) as [e|domain]; [discriminate|].
  destruct (dict_getitem user_info "verified_email") as [e|verified]; [discriminate|].
  destruct (negb (truthy verified)); [discriminate|].
  destruct (run h (find_or_create user_info user_email domain) w2)
    as [[[e|uid] w3] t']; [discriminate|].
  destruct (h _ (CreateToken uid) w3) as [[e|key_token] w4] eqn:Hk; [discriminate|].
  intros [= <- <- <-].
  exists uid, key_token, w3,
    ([EvCall (get_token code); token_ok; EvCall (GoogleGetUserInfo access_token)]
     ++ t')%list.
  split; [exact Hk|]. split; reflexivity.
Qed.

(** X13: One login creates at most one user, and only right after its own
    lookup by the same email found nobody: in the trace the call of
    [create_user] follows the call of [get_user_by_email] on the email of
    the fetched profile, which answered [None] in the world the profile
    fetch left, and no other [create_user] is in the trace. *)
Theorem user_created_only_after_failed_lookup code w r w' t :
  run h (callback code) w = (r, w', t) ->
  existsb is_create_user t = true ->
  exists code' access_token w1 user_info w2 email name w3 rest,
    code = Some code'
    /\ h _ (get_token code') w = (inr access_token, w1)
    /\ h _ (GoogleGetUserInfo access_token) w1 = (inr user_info, w2)
    /\ user_info !! "email" = Some email
    /\ user_info !! "name" = Some name
    /\ h _ (GetUserByEmail email) w2 = (inr None, w3)
    /\ t = ([EvCall (get_token code'); token_ok;
             EvCall (GoogleGetUserInfo access_token);
             EvCall (GetUserByEmail email); EvCall (CreateUser name email)]
            ++ rest)%list
    /\ existsb is_create_user rest = false.
Proof.
  destruct code as [code|]; [|intros [= <- <- <-]; discriminate].
  rewrite run_callback_some.
  destruct (h _ (get_token code) w) as [[e|access_token] w1] eqn:Ht.
  { destruct e; intros [= <- <- <-]; discriminate. }
  cbv zeta.
  destruct (h _ (GoogleGetUserInfo access_token) w1) as [[e|user_info] w2] eqn:Hp;
    [intros [= <- <- <-]; discriminate|].
  unfold dict_getitem at 1.
  destruct (user_info !! "email") as [user_email|] eqn:He;
    [|intros [= <- <- <-]; discriminate].
  destruct (split_at user_email) as [e|parts]; [intros [= <- <- <-]; discriminate|].
  destruct (getitem parts 1) as [e|domain]; [intros [= <- <- <-]; discriminate|].
  destruct (dict_getitem user_info "verified_email") as [e|verified];
    [intros [= <- <- <-]; discriminate|].
  destruct (negb (truthy verified)); [intros [= <- <- <-]; discriminate|].
  rewrite run_find_or_create_any.
  destruct (h _ (GetUserByEmail user_email) w2) as [[e|[user|]] w3] eqn:Hu.
  - intros [= <- <- <-]; discriminate.
  - destruct (h _ (CreateToken (user_id user)) w3) as [z w4].
    intros [= <- <- <-]; discriminate.
  - unfold dict_getitem.
    destruct (user_info !! "name") as [name|] eqn:Hn;
      [|intros [= <- <- <-]; discriminate].
    destruct (h _ (CreateUser name user_email) w3) as [[e|uid] w4].
    + intros [= <- <- <-] _.
      exists code, access_token, w1, user_info, w2, user_email, name, w3, [].
      repeat split; try assumption; reflexivity.
    + destruct (h _ (CreateToken uid) w4) as [z w5].
      intros [= <- <- <-] _.
      exists code, access_token, w1, user_info, w2, user_email, name, w3,
        [EvLog INFO ("Created new user: xxxx@" +:+ domain); EvCall (CreateToken uid)].
      repeat split; try assumption; reflexivity.
Qed.

End UserResolution.

(** ** [google_login] and the callback URI *)

(** X15: the log lines of [google_login]: one critical line for each
    credential that is missing, the client id first, or the one line of
    success.  When a credential is missing the answer is given on line 31,
    before [google.auth_url] and [request.url_for] are looked at: it is
    the same for every [google] object and every request. *)
Theorem google_login_logs_missing_credentials (settings : Settings)
    (g : GoogleOAuth) (request : Request) {W} (h : handler W) (w : W) :
  filter is_log (snd (run h (google_login settings g request) w))
  = match google_client_id settings, google_client_secret settings with
    | Some _, Some _ =>
        [EvLog INFO "Success to generate login url and redirect."]
    | cid, csec =>
        (match cid with
         | Some _ => []
         | None => [EvLog CRITICAL "Not Found Google client id."]
         end
         ++ match csec with
            | Some _ => []
            | None => [EvLog CRITICAL "Not Found Google client secret."]
            end)%list
    end
  /\ ((google_client_id settings = None \/ google_client_secret settings = None) ->
      forall g' request',
        run h (google_login settings g' request') w
        = run h (google_login settings g request) w).
Proof.
  unfold google_login.
  destruct (google_client_id settings) as [cid|], (google_client_secret settings) as [sec|];
    (split; [reflexivity|]); intros Hmiss g' request'; try reflexivity.
  destruct Hmiss; discriminate.
Qed.

(** X16: The callback sends to the token exchange the settings' credentials as
    they are (it does not check them, unlike [google_login]) and the same
    callback URI that [google_login] gave to [google.auth_url]. *)
Theorem callback_exchanges_with_login_redirect_uri (settings : Settings)
    (g : GoogleOAuth) (urllib : UrlLib) (request : Request)
    {W} (h : handler W) (code : string) (w : W) :
  (exists t,
      snd (run h (google_callback settings urllib request (Some code)) w) =
      EvCall (GoogleGetToken code (google_client_id settings)
                (google_client_secret settings) (url_for request "google_callback"))
      :: t)
  /\ (forall cid sec w0,
         google_client_id settings = Some cid ->
         google_client_secret settings = Some sec ->
         fst (fst (run h (google_login settings g request) w0)) =
         inr (RedirectResponse (auth_url g cid (url_for request "google_callback")))).
Proof.
  split.
  - rewrite run_callback_some.
    destruct (h _ (GoogleGetToken code (google_client_id settings)
                     (google_client_secret settings)
                     (url_for request "google_callback")) w) as [[e|access_token] w1].
    + destruct e; eexists; reflexivity.
    + cbv zeta.
      destruct (h _ (GoogleGetUserInfo access_token) w1) as [[e|user_info] w2];
        [eexists; reflexivity|].
      destruct (dict_getitem user_info "email") as [e|user_email]; [eexists; reflexivity|].
      destruct (split_at user_email) as [e|parts]; [eexists; reflexivity|].
      destruct (getitem parts 1) as [e|domain]; [eexists; reflexivity|].
      destruct (dict_getitem user_info "verified_email") as [e|verified];
        [eexists; reflexivity|].
      destruct (negb (truthy verified)); [eexists; reflexivity|].
      destruct (run h (find_or_create user_info user_email domain) w2)
        as [[[e|uid] w3] t']; [eexists; reflexivity|].
      destruct (h _ (CreateToken uid) w3) as [z w4]. eexists; reflexivity.
  - intros cid sec w0 Hc Hs. unfold google_login. rewrite Hc, Hs. reflexivity.
Qed.

(** ** [is_authenticated], the other ways out *)

Lemma forallb_false_exists {A} (f : A -> bool) (l : list A) :
  forallb f l = false -> exists x, In x l /\ f x = false.
Proof.
  induction l as [|x l IH]; simpl; [discriminate|].
  destruct (f x) eqn:E; simpl.
  - intros H. destruct (IH H) as (y & Hin & Hy). exists y. split; [right|]; assumption.
  - intros _. exists x. split; [left; reflexivity | exact E].
Qed.

Lemma list_ascii_of_string_app (a b : string) :
  list_ascii_of_string (a +:+ b)
  = (list_ascii_of_string a ++ list_ascii_of_string b)%list.
Proof.
  induction a as [|x a IH]; [reflexivity|].
  change (x :: list_ascii_of_string (a +:+ b)
          = x :: (list_ascii_of_string a ++ list_ascii_of_string b)%list).
  rewrite IH. reflexivity.
Qed.

Lemma blank_or_has_nonspace (header : string) : blank header \/ has_nonspace header.
Proof.
  unfold blank, has_nonspace.
  destruct (forallb isspace (list_ascii_of_string header)) eqn:E; [left; reflexivity|].
  right. apply forallb_false_exists. exact E.
Qed.

Lemma extract_token_blank (header : string) :
  blank header -> extract_token header = inl IndexError.
Proof. intros Hb. unfold extract_token. rewrite (rsplit_blank_nil _ 1 Hb). reflexivity. Qed.

Lemma extract_token_nonblank (header : string) :
  has_nonspace header ->
  exists tok, last_token header tok /\ extract_token header = inr tok.
Proof.
  intros Hns.
  destruct (has_last_token (list_ascii_of_string header) Hns) as [tok Htok].
  exists (string_of_list_ascii tok).
  assert (Hl : last_token header (string_of_list_ascii tok))
    by (unfold last_token; rewrite list_ascii_of_string_of_list_ascii; exact Htok).
  split; [exact Hl | apply extract_token_last_token; exact Hl].
Qed.

(** X17: [rsplit(maxsplit=1)[-1]] fails on the blank header values and on no
    other, and [IndexError] is the only way it fails. *)
Theorem extract_token_fails_iff_blank (header : string) :
  (extract_token header = inl IndexError <-> blank header)
  /\ forall e, extract_token header = inl e -> e = IndexError.
Proof.
  assert (Hinv : forall e, extract_token header = inl e -> blank header).
  { intros e He. destruct (blank_or_has_nonspace header) as [Hb|Hns]; [exact Hb|].
    destruct (extract_token_nonblank header Hns) as (tok & _ & Ht).
    rewrite Ht in He. discriminate. }
  split; [split|].
  - apply Hinv.
  - apply extract_token_blank.
  - intros e He. pose proof (extract_token_blank header (Hinv e He)) as Hb.
    rewrite Hb in He. injection He as <-. reflexivity.
Qed.

(** X18: What [is_authenticated] hands to [jwt.decode] is never empty and has
    no whitespace in it; it is the last token of the header value, and
    taking the token of a token changes nothing. *)
Theorem extracted_token_is_clean (header tok : string) :
  extract_token header = inr tok ->
  tok <> EmptyString
  /\ forallb nonspace (list_ascii_of_string tok) = true
  /\ last_token header tok
  /\ extract_token tok = inr tok.
Proof.
  intros He.
  assert (Hl : last_token header tok).
  { destruct (blank_or_has_nonspace header) as [Hb|Hns].
    - rewrite (extract_token_blank header Hb) in He. discriminate.
    - destruct (extract_token_nonblank header Hns) as (tok' & Hl & Ht).
      rewrite Ht in He. injection He as <-. exact Hl. }
  destruct Hl as (pre & suf & Hs & Hne & Hns & Hsuf & Hpre) eqn:Hkeep.
  split; [|split; [|split]].
  - intros ->. apply Hne. reflexivity.
  - exact Hns.
  - exact (ex_intro _ pre (ex_intro _ suf (conj Hs (conj Hne (conj Hns (conj Hsuf Hpre)))))).
  - apply extract_token_last_token. exists [], [].
    rewrite app_nil_r. repeat split; try assumption. left. reflexivity.
Qed.

Section AuthenticatorExtras.

Variable settings : Settings.
Variable UserModelDTO : Type.
Variable model_validate : UserModel -> exn + UserModelDTO.
Context {W : Type}.
Variable h : handler W.

Local Abbreviation authenticate := (is_authenticated settings UserModelDTO model_validate).
Local Abbreviation decode tok :=
  (JwtDecode tok (token_secret_key settings) [token_algorithm settings]).

(** X19: The scheme word is not looked at: whatever stands before the last
    blank-separated token, and whatever whitespace follows it, the call is
    the same as with the bare token. *)
Theorem scheme_is_not_checked (scheme t trailing : string) :
  t <> EmptyString ->
  forallb nonspace (list_ascii_of_string t) = true ->
  blank trailing ->
  extract_token (scheme +:+ " " +:+ t +:+ trailing) = inr t
  /\ authenticate (Some (scheme +:+ " " +:+ t +:+ trailing)) = authenticate (Some t).
Proof.
  intros Hne Ht Hb.
  assert (Hnil : list_ascii_of_string t <> []).
  { intros E. apply Hne. rewrite <- (string_of_list_ascii_of_string t), E. reflexivity. }
  assert (H1 : extract_token (scheme +:+ " " +:+ t +:+ trailing) = inr t).
  { apply extract_token_last_token.
    exists (list_ascii_of_string scheme ++ [" "%char])%list, (list_ascii_of_string trailing).
    split; [|split; [exact Hnil|split; [exact Ht|split; [exact Hb|]]]].
    - rewrite !list_ascii_of_string_app, <- !app_assoc. reflexivity.
    - right. exists (list_ascii_of_string scheme), " "%char. split; reflexivity. }
  assert (H2 : extract_token t = inr t).
  { apply extract_token_last_token. exists [], [].
    rewrite app_nil_r. repeat split; try assumption. left. reflexivity. }
  split; [exact H1|]. unfold is_authenticated. rewrite H1, H2. reflexivity.
Qed.

(** X20: [is_authenticated] calls [jwt.decode] at most once, on the extracted
    token with the key and the algorithm of the settings, then [get_user]
    at most once, and nothing else: no provider, no write to a store. *)
Theorem is_authenticated_calls_only_decode_and_get_user authorization w :
  let t := snd (run h (authenticate authorization) w) in
  t = []
  \/ exists header tok,
      authorization = Some header /\ extract_token header = inr tok
      /\ (t = [EvCall (decode tok)]
          \/ exists uid, t = [EvCall (decode tok); EvCall (GetUser uid)]).
Proof.
  destruct authorization as [header|]; [|left; reflexivity].
  destruct (extract_token header) as [e|tok] eqn:He.
  { left. unfold is_authenticated. rewrite He. reflexivity. }
  right. exists header, tok. split; [reflexivity|]. split; [exact He|].
  cbv zeta.
  rewrite (run_authenticate_token settings UserModelDTO model_validate h header tok w He).
  unfold decode_payload. rewrite run_try_except, run_call.
  destruct (h _ (decode tok) w) as [[e|payload] w1]; cbn [fst snd].
  - left. destruct e; reflexivity.
  - destruct (dict_getitem payload "user_id") as [e|uid]; [left; reflexivity|].
    right. exists uid.
    destruct (h _ (GetUser uid) w1) as [r w2]. reflexivity.
Qed.

(** X21: Only the exceptions of class [JWTError] become a 401: any other
    exception of [jwt.decode] leaves [is_authenticated] as it is. *)
Theorem decode_exception_outside_jose_propagates header tok w e w1 :
  extract_token header = inr tok ->
  h _ (decode tok) w = (inl e, w1) ->
  is_JWTError e = false ->
  run h (authenticate (Some header)) w = (inl e, w1, [EvCall (decode tok)]).
Proof.
  intros He Hd Hj.
  rewrite (run_authenticate_token settings UserModelDTO model_validate h header tok w He).
  unfold decode_payload. rewrite run_try_except, run_call, Hd. cbn [fst snd].
  destruct e; try discriminate; reflexivity.
Qed.

(** X22: After a token is accepted, an exception of [get_user] and an error of
    [model_validate] on the user found both leave [is_authenticated] as
    they are: neither becomes one of the 4xx [HTTPException]s. *)
Theorem lookup_and_validation_errors_propagate header tok w payload uid w1 :
  extract_token header = inr tok ->
  h _ (decode tok) w = (inr payload, w1) ->
  payload !! "user_id" = Some uid ->
  (forall e w2,
      h _ (GetUser uid) w1 = (inl e, w2) ->
      run h (authenticate (Some header)) w =
      (inl e, w2, [EvCall (decode tok); EvCall (GetUser uid)]))
  /\ (forall user e w2,
         h _ (GetUser uid) w1 = (inr (Some user), w2) ->
         model_validate user = inl e ->
         run h (authenticate (Some header)) w =
         (inl e, w2, [EvCall (decode tok); EvCall (GetUser uid)])).
Proof.
  intros He Hd Hu.
  pose proof (run_authenticate_token settings UserModelDTO model_validate h
                header tok w He) as Hrun.
  rewrite (run_decode_payload_ok settings h tok w payload w1 Hd) in Hrun.
  unfold dict_getitem in Hrun. rewrite Hu in Hrun.
  split.
  - intros e w2 Hg. rewrite Hrun, Hg. reflexivity.
  - intros user e w2 Hg Hv. rewrite Hrun, Hg, Hv. reflexivity.
Qed.

End AuthenticatorExtras.

(** ** The domain of the email *)

Lemma split_on_cut (sep : ascii) (l1 l2 : list ascii) :
  ~ In sep l1 -> split_on sep (l1 ++ sep :: l2) = l1 :: split_on sep l2.
Proof.
  induction l1 as [|c l1 IH]; simpl; intros Hn.
  - rewrite Ascii.eqb_refl. reflexivity.
  - destruct (Ascii.eqb c sep) eqn:E.
    + apply Ascii.eqb_eq in E. exfalso. apply Hn. left. exact E.
    + rewrite IH by (intros Hin; apply Hn; right; exact Hin). reflexivity.
Qed.

(** X8: [user_email.split("@")[1]] is the text between the first [@] and the
    next one (or the end): the whole domain of [local@domain], and only
    [b] for [a@b@c]. *)
Theorem domain_of_email (local domain rest : string) :
  ~ In "@"%char (list_ascii_of_string local) ->
  ~ In "@"%char (list_ascii_of_string domain) ->
  getitem (split (local +:+ "@" +:+ domain) "@") 1 = inr domain
  /\ getitem (split (local +:+ "@" +:+ domain +:+ "@" +:+ rest) "@") 1 = inr domain.
Proof.
  intros Hl Hd. unfold split. split.
  - rewrite list_ascii_of_string_app.
    change (list_ascii_of_string ("@" +:+ domain))
      with ("@"%char :: list_ascii_of_string domain).
    rewrite (split_on_cut _ _ _ Hl), (split_on_absent _ _ Hd). cbn [map].
    rewrite getitem_second, string_of_list_ascii_of_string. reflexivity.
  - rewrite list_ascii_of_string_app.
    change (list_ascii_of_string ("@" +:+ domain +:+ "@" +:+ rest))
      with ("@"%char :: list_ascii_of_string (domain +:+ "@" +:+ rest)).
    rewrite (split_on_cut _ _ _ Hl), list_ascii_of_string_app.
    change (list_ascii_of_string ("@" +:+ rest))
      with ("@"%char :: list_ascii_of_string rest).
    rewrite (split_on_cut _ _ _ Hd). cbn [map].
    rewrite getitem_second, string_of_list_ascii_of_string. reflexivity.
Qed.

(** ** From the login to the authenticated request *)

Section LoginThenAuthenticate.

Import Store.

Variable settings : Settings.
Variable urllib : UrlLib.
Variable request : Request.
Variable UserModelDTO : Type.
Variable model_validate : UserModel -> exn + UserModelDTO.
Variable E : Env.

Local Abbreviation callback := (google_callback settings urllib request).
Local Abbreviation authenticate := (is_authenticated settings UserModelDTO model_validate).
Local Abbreviation get_token code :=
  (GoogleGetToken code (google_client_id settings) (google_client_secret settings)
     (url_for request "google_callback")).
Local Abbreviation decode tok :=
  (JwtDecode tok (token_secret_key settings) [token_algorithm settings]).

Lemma fresh_id_above (db : Db) (u : UserModel) :
  In u (users db) -> user_id u < fresh_id db.
Proof.
  unfold fresh_id. generalize (users db). intros l.
  induction l as [|x l IH]; simpl; [contradiction|].
  intros [->|Hin]; [lia|]. specialize (IH Hin). lia.
Qed.

Lemma find_by_id_absent (n : Z) (l : list UserModel) :
  (forall u, In u l -> user_id u <> n) ->
  find (fun u => bool_decide (user_id u = n)) l = None.
Proof.
  induction l as [|x l IH]; simpl; [reflexivity|]. intros H.
  rewrite bool_decide_eq_false_2 by (apply H; left; reflexivity).
  apply IH. intros u Hu. apply H. right. exact Hu.
Qed.

Lemma find_by_id_unique (u : UserModel) (l : list UserModel) :
  NoDup (map user_id l) -> In u l ->
  find (fun x => bool_decide (user_id x = user_id u)) l = Some u.
Proof.
  induction l as [|x l IH]; simpl; [contradiction|].
  intros Hnd Hin. inversion Hnd as [|? ? Hx Hnd']; subst.
  destruct Hin as [->|Hin].
  - rewrite bool_decide_eq_true_2 by reflexivity. reflexivity.
  - rewrite bool_decide_eq_false_2; [apply IH; assumption|].
    intros Heq. apply Hx. rewrite Heq. apply list_elem_of_In, in_map, Hin.
Qed.

(** X23: A token that a successful login hands out is recorded under the id of
    a user of the table, the one with the email of the profile; when
    [jwt.decode] gives back that id for the token, [is_authenticated] on
    [Bearer <token>] finds that same user. *)
Theorem issued_token_authenticates_its_user (code : string) (db db1 : Db)
    (url : string) (t : list event) (access_token : string) (user_info : dict)
    (email : value) :
  NoDup (map user_id (users db)) ->
  provider_token E code = inr access_token ->
  provider_profile E access_token = inr user_info ->
  user_info !! "email" = Some email ->
  run (env_handler E) (callback (Some code)) db = (inr (RedirectResponse url), db1, t) ->
  exists uid key_token user,
    resolved_user t = Some uid
    /\ issue_token E uid = inr key_token
    /\ url = urljoin urllib (web_url settings) "callback"
             +:+ "?" +:+ urlencode urllib [("key_token", key_token)]
    /\ In (uid, key_token) (tokens db1)
    /\ get_user (VInt uid) db1 = Some user
    /\ user_id user = uid /\ user_email user = email
    /\ forall payload,
        key_token <> EmptyString ->
        forallb nonspace (list_ascii_of_string key_token) = true ->
        jwt_decode E key_token = inr payload ->
        payload !! "user_id" = Some (VInt uid) ->
        run (env_handler E) (authenticate (Some ("Bearer " +:+ key_token))) db1 =
        (model_validate user, db1,
         [EvCall (decode key_token); EvCall (GetUser (VInt uid))]).
Proof.
  intros Hnd Ht Hp He Hrun.
  assert (Hg : env_handler E _ (get_token code) db = (inr access_token, db))
    by (cbn [env_handler]; rewrite Ht; reflexivity).
  assert (Hi : env_handler E _ (GoogleGetUserInfo access_token) db = (inr user_info, db))
    by (cbn [env_handler]; rewrite Hp; reflexivity).
  rewrite run_callback_some, Hg in Hrun. cbv beta iota zeta in Hrun.
  rewrite Hi in Hrun. unfold dict_getitem in Hrun at 1. rewrite He in Hrun.
  destruct (split_at email) as [?|parts]; [discriminate|].
  destruct (getitem parts 1) as [?|domain]; [discriminate|].
  destruct (dict_getitem user_info "verified_email") as [?|verified]; [discriminate|].
  destruct (negb (truthy verified)); [discriminate|].
  rewrite run_find_or_create in Hrun.
  assert (Hauth : forall uid key_token user,
             get_user (VInt uid) db1 = Some user ->
             forall payload,
               key_token <> EmptyString ->
               forallb nonspace (list_ascii_of_string key_token) = true ->
               jwt_decode E key_token = inr payload ->
               payload !! "user_id" = Some (VInt uid) ->
               run (env_handler E) (authenticate (Some ("Bearer " +:+ key_token))) db1 =
               (model_validate user, db1,
                [EvCall (decode key_token); EvCall (GetUser (VInt uid))])).
  { intros uid key_token user Hgu payload Hne Hns Hd Hu.
    assert (Hx : extract_token ("Bearer " +:+ key_token) = inr key_token).
    { apply extract_token_last_token.
      exists (list_ascii_of_string "Bearer "), [].
      rewrite app_nil_r. split; [reflexivity|]. split.
      - intros En. apply Hne.
        rewrite <- (string_of_list_ascii_of_string key_token), En. reflexivity.
      - split; [exact Hns|]. split; [reflexivity|].
        right. exists (list_ascii_of_string "Bearer"), " "%char. split; reflexivity. }
    rewrite (run_authenticate_token settings UserModelDTO model_validate
               (env_handler E) _ key_token db1 Hx).
    assert (Hdec : env_handler E _ (decode key_token) db1 = (inr payload, db1))
      by (cbn [env_handler]; rewrite Hd; reflexivity).
    rewrite (run_decode_payload_ok settings (env_handler E) key_token db1 payload db1 Hdec).
    unfold dict_getitem. rewrite Hu. cbn [env_handler]. rewrite Hgu.
    destruct (model_validate user); reflexivity. }
  destruct (get_user_by_email email db) as [u|] eqn:Hlook.
  - (* the user was there *)
    cbn [env_handler] in Hrun. unfold create_token in Hrun.
    destruct (issue_token E (user_id u)) as [?|key_token] eqn:Hk; [discriminate|].
    injection Hrun as <- <- <-.
    apply find_some in Hlook as [Hin Hem]. apply bool_decide_eq_true_1 in Hem.
    assert (Hgu : get_user (VInt (user_id u))
                    {| users := users db; tokens := tokens db ++ [(user_id u, key_token)] |}
                  = Some u) by (apply find_by_id_unique; assumption).
    exists (user_id u), key_token, u.
    split; [reflexivity|]. split; [exact Hk|]. split; [reflexivity|].
    split; [cbn [tokens]; apply in_or_app; right; left; reflexivity|].
    split; [exact Hgu|]. split; [reflexivity|]. split; [exact Hem|].
    apply Hauth. exact Hgu.
  - (* the user is new *)
    destruct (dict_getitem user_info "name") as [?|name]; [discriminate|].
    unfold create_user in Hrun. rewrite Hlook in Hrun. cbn [fst snd] in Hrun.
    cbn [env_handler] in Hrun. unfold create_token in Hrun.
    destruct (issue_token E (fresh_id db)) as [?|key_token] eqn:Hk; [discriminate|].
    injection Hrun as <- <- <-.
    set (new := {| user_id := fresh_id db; username := name; user_email := email |}).
    assert (Hgu : get_user (VInt (fresh_id db))
                    {| users := users db ++ [new];
                       tokens := tokens db ++ [(fresh_id db, key_token)] |}
                  = Some new).
    { unfold get_user. cbn [users]. rewrite find_app, find_by_id_absent.
      - simpl. rewrite bool_decide_eq_true_2 by reflexivity. reflexivity.
      - intros u Hu. pose proof (fresh_id_above db u Hu). lia. }
    exists (fresh_id db), key_token, new.
    split; [reflexivity|]. split; [exact Hk|]. split; [reflexivity|].
    split; [cbn [tokens]; apply in_or_app; right; left; reflexivity|].
    split; [exact Hgu|]. split; [reflexivity|]. split; [reflexivity|].
    apply Hauth. exact Hgu.
Qed.

End LoginThenAuthenticate.

(** ** What a login does to the tables *)

Section LoginAndTables.

Import Store.

Variable settings : Settings.
Variable urllib : UrlLib.
Variable request : Request.
Variable E : Env.

Local Abbreviation callback := (google_callback settings urllib request).

(** The table after a login, whatever its outcome: as before; or with one
    more token, for a user who was found; or with one more user, whose
    email nobody had, and perhaps a token for that user. *)
Lemma callback_tables code db r db1 t :
  run (env_handler E) (callback code) db = (r, db1, t) ->
  db1 = db
  \/ (exists u key_token,
         In u (users db)
         /\ db1 = {| users := users db; tokens := tokens db ++ [(user_id u, key_token)] |})
  \/ (exists name email,
         get_user_by_email email db = None
         /\ let new := {| user_id := fresh_id db; username := name; user_email := email |} in
            db1 = {| users := users db ++ [new]; tokens := tokens db |}
            \/ exists key_token,
                 db1 = {| users := users db ++ [new];
                          tokens := tokens db ++ [(fresh_id db, key_token)] |}).
Proof.
  destruct code as [code|]; [|intros [= <- <- <-]; left; reflexivity].
  rewrite run_callback_some. cbn [env_handler].
  destruct (provider_token E code) as [e|access_token].
  { destruct e; intros [= <- <- <-]; left; reflexivity. }
  cbv zeta.
  destruct (provider_profile E access_token) as [e|user_info];
    [intros [= <- <- <-]; left; reflexivity|].
  destruct (dict_getitem user_info "email") as [e|user_email];
    [intros [= <- <- <-]; left; reflexivity|].
  destruct (split_at user_email) as [e|parts];
    [intros [= <- <- <-]; left; reflexivity|].
  destruct (getitem parts 1) as [e|domain];
    [intros [= <- <- <-]; left; reflexivity|].
  destruct (dict_getitem user_info "verified_email") as [e|verified];
    [intros [= <- <- <-]; left; reflexivity|].
  destruct (negb (truthy verified)); [intros [= <- <- <-]; left; reflexivity|].
  rewrite run_find_or_create.
  destruct (get_user_by_email user_email db) as [u|] eqn:Hlook.
  - unfold create_token. apply find_some in Hlook as [Hin _].
    destruct (issue_token E (user_id u)) as [e|key_token]; intros [= <- <- <-];
      [left; reflexivity|].
    right. left. exists u, key_token. split; [exact Hin | reflexivity].
  - destruct (dict_getitem user_info "name") as [e|name];
      [intros [= <- <- <-]; left; reflexivity|].
    unfold create_user. rewrite Hlook. cbn [fst snd]. unfold create_token.
    destruct (issue_token E (fresh_id db)) as [e|key_token]; intros [= <- <- <-];
      right; right; exists name, user_email; (split; [exact Hlook|]); cbv zeta.
    + left. reflexivity.
    + right. exists key_token. reflexivity.
Qed.

Lemma find_by_email_none (email : value) (l : list UserModel) (u : UserModel) :
  find (fun x => bool_decide (user_email x = email)) l = None ->
  In u l -> user_email u <> email.
Proof.
  intros Hf Hin Heq.
  pose proof (find_none _ _ Hf u Hin) as Hb. cbv beta in Hb.
  rewrite bool_decide_eq_true_2 in Hb by exact Heq. discriminate.
Qed.

Lemma NoDup_snoc {A B} (f : A -> B) (l : list A) (x : A) :
  NoDup (map f l) -> (forall y, In y l -> f y <> f x) -> NoDup (map f (l ++ [x])).
Proof.
  intros Hnd Hx. rewrite map_app. apply NoDup_app. split; [exact Hnd|].
  split; [|apply NoDup_singleton].
  intros b Hb Hb'. apply list_elem_of_In in Hb, Hb'.
  destruct Hb' as [<-|[]]. apply in_map_iff in Hb as (y & Hy & Hin).
  exact (Hx y Hin Hy).
Qed.

(** X24: A login, whatever its outcome, keeps the tables consistent; it
    removes and changes no row, and adds at most one user and at most one
    token. *)
Theorem login_keeps_tables_consistent code db r db1 t :
  tables_consistent db ->
  run (env_handler E) (callback code) db = (r, db1, t) ->
  tables_consistent db1
  /\ (exists extra, users db1 = (users db ++ extra)%list /\ (length extra <= 1)%nat)
  /\ (exists more, tokens db1 = (tokens db ++ more)%list /\ (length more <= 1)%nat).
Proof.
  intros (Hid & Hem & Htok) Hrun.
  assert (Hweak : forall l l' : list UserModel,
             (forall u, In u l -> In u l') ->
             Forall (fun ut => exists u, In u l /\ user_id u = fst ut) (tokens db) ->
             Forall (fun ut => exists u, In u l' /\ user_id u = fst ut) (tokens db)).
  { intros l l' Hsub HF. eapply Forall_impl; [exact HF|].
    intros ut (u & Hu & Hi). exists u. split; [apply Hsub; exact Hu | exact Hi]. }
  destruct (callback_tables code db r db1 t Hrun)
    as [->|[(u & key_token & Hin & ->)|(name & email & Hlook & Hnew)]].
  - split; [repeat split; assumption|].
    split; exists []; rewrite app_nil_r; (split; [reflexivity | simpl; lia]).
  - split; [|split].
    + split; [exact Hid|]. split; [exact Hem|]. cbn [users tokens].
      apply Forall_app. split; [exact Htok|].
      constructor; [|constructor]. exists u. split; [exact Hin | reflexivity].
    + exists []. rewrite app_nil_r. split; [reflexivity | simpl; lia].
    + exists [(user_id u, key_token)]. split; [reflexivity | simpl; lia].
  - cbv zeta in Hnew.
    set (new := {| user_id := fresh_id db; username := name; user_email := email |}) in *.
    assert (Hid' : NoDup (map user_id (users db ++ [new]))).
    { apply NoDup_snoc; [exact Hid|]. intros y Hy.
      pose proof (fresh_id_above db y Hy). simpl. lia. }
    assert (Hem' : NoDup (map user_email (users db ++ [new]))).
    { apply NoDup_snoc; [exact Hem|]. intros y Hy.
      exact (find_by_email_none email (users db) y Hlook Hy). }
    assert (Htok' : Forall (fun ut => exists u, In u (users db ++ [new])
                                                /\ user_id u = fst ut) (tokens db)).
    { apply (Hweak (users db)); [|exact Htok].
      intros u Hu. apply in_or_app. left. exact Hu. }
    destruct Hnew as [->|(key_token & ->)].
    + split; [repeat split; assumption|]. split.
      * exists [new]. split; [reflexivity | simpl; lia].
      * exists []. rewrite app_nil_r. split; [reflexivity | simpl; lia].
    + split; [|split].
      * split; [exact Hid'|]. split; [exact Hem'|]. cbn [users tokens].
        apply Forall_app. split; [exact Htok'|].
        constructor; [|constructor]. exists new.
        split; [apply in_or_app; right; left; reflexivity | reflexivity].
      * exists [new]. split; [reflexivity | simpl; lia].
      * exists [(fresh_id db, key_token)]. split; [reflexivity | simpl; lia].
Qed.

End LoginAndTables.

Section MissingCode.

Variable settings : Settings.
Variable urllib : UrlLib.
Variable request : Request.
Context {W : Type}.
Variable h : handler W.

Local Abbreviation callback := (google_callback settings urllib request).
Local Abbreviation login_faild :=
  (JSONResponse 400 (json_err_content 400 "Bad Request" "Google login faild.")).

(** X1: The body [Google login faild.] is the answer to a request without a
    code, given without calling anybody, and to no other request. *)
Theorem login_faild_iff_code_missing code w :
  (code = None ->
   run h (callback code) w = (inr login_faild, w, [EvLog ERROR "Google login failed"]))
  /\ (fst (fst (run h (callback code) w)) = inr login_faild -> code = None).
Proof.
  split; [intros ->; reflexivity|].
  destruct code as [code|]; [|reflexivity].
  rewrite run_callback_some.
  destruct (h _ (GoogleGetToken code (google_client_id settings)
                   (google_client_secret settings)
                   (url_for request "google_callback")) w) as [[e|access_token] w1].
  { destruct e; discriminate. }
  cbv zeta.
  destruct (h _ (GoogleGetUserInfo access_token) w1) as [[e|user_info] w2];
    [discriminate|].
  destruct (dict_getitem user_info "email") as [e|user_email]; [discriminate|].
  destruct (split_at user_email) as [e|parts]; [discriminate|].
  destruct (getitem parts 1) as [e|domain]; [discriminate|].
  destruct (dict_getitem user_info "verified_email") as [e|verified]; [discriminate|].
  destruct (negb (truthy verified)); [discriminate|].
  destruct (run h (find_or_create user_info user_email domain) w2)
    as [[[e|uid] w3] t']; [discriminate|].
  destruct (h _ (CreateToken uid) w3) as [[e|key_token] w4]; discriminate.
Qed.

End MissingCode.

(** ** The further properties on a concrete deployment *)

Section CaseRuns.

Import Store.

Local Abbreviation settings := Demo.settings.
Local Abbreviation urllib := Demo.urllib.
Local Abbreviation request := Demo.request.
Local Abbreviation empty_db := Demo.empty_db.
Local Abbreviation H := (env_handler Cases.env).
Local Abbreviation callback := (google_callback settings urllib request).
Local Abbreviation authenticate := (is_authenticated settings UserModel inr).
Local Abbreviation outcome r := (fst (fst r)).
Local Abbreviation trace r := (snd r).
Local Abbreviation get_token code :=
  (GoogleGetToken code (Some "cid-123") (Some "s3cr3t")
     "https://api.example/api/auth/google/callback").
Local Abbreviation token_ok := (EvLog INFO "Success to retrieve access token from Google API.").
Local Abbreviation decode tok := (JwtDecode tok "k" ["HS256"]).

Lemma token_exchange_failure_is_bad_request_witness :
  run H (callback (Some "used")) empty_db =
  (inr (JSONResponse 400
          (json_err_content 400 "Bad Request"
             "Failed to retrieve the access token for Google login.")),
   empty_db,
   [EvCall (get_token "used");
    EvLog ERROR "Failed to retrieve access token for Google login."]).
Proof.
  apply (token_exchange_failure_is_bad_request settings urllib request H
           "used" empty_db empty_db).
  reflexivity.
Defined.

Lemma token_exchange_other_exception_propagates_witness :
  run H (callback (Some "down")) empty_db =
  (inl (OtherError "httpx.ConnectError"), empty_db, [EvCall (get_token "down")]).
Proof.
  apply (token_exchange_other_exception_propagates settings urllib request H
           "down" empty_db (OtherError "httpx.ConnectError") empty_db).
  - reflexivity.
  - discriminate.
Defined.

Lemma json_response_means_no_access_token_witness :
  existsb touches_store (trace (run H (callback (Some "used")) empty_db)) = false
  /\ provider_token Cases.env "used" = inl FaildRetrieveAccessTokenError.
Proof.
  destruct (json_response_means_no_access_token settings urllib request H
              (Some "used") empty_db 400
              (json_err_content 400 "Bad Request"
                 "Failed to retrieve the access token for Google login.")
              empty_db
              [EvCall (get_token "used");
               EvLog ERROR "Failed to retrieve access token for Google login."])
    as (_ & _ & _ & Hstore & _); [vm_compute; reflexivity|].
  split; [|reflexivity]. vm_compute. reflexivity.
Defined.

Lemma malformed_profile_raises_witness :
  outcome (run H (callback (Some "noemail")) empty_db) = inl (KeyError "email")
  /\ outcome (run H (callback (Some "numemail")) empty_db) = inl AttributeError
  /\ outcome (run H (callback (Some "noflag")) empty_db)
     = inl (KeyError "verified_email").
Proof.
  split; [|split].
  - destruct (malformed_profile_raises settings urllib request H
                "noemail" empty_db "at-noemail" empty_db
                {[ "verified_email" := VBool true; "name" := VStr "Nobody" ]}
                empty_db eq_refl eq_refl) as (Ha & _).
    rewrite Ha; [reflexivity | vm_compute; reflexivity].
  - destruct (malformed_profile_raises settings urllib request H
                "numemail" empty_db "at-numemail" empty_db
                {[ "email" := VInt 5; "verified_email" := VBool true;
                   "name" := VStr "Five" ]}
                empty_db eq_refl eq_refl) as (_ & Hb & _).
    rewrite (Hb (VInt 5)); [reflexivity | vm_compute; reflexivity | discriminate].
  - destruct (malformed_profile_raises settings urllib request H
                "noflag" empty_db "at-noflag" empty_db
                {[ "email" := VStr "carol@example.com"; "name" := VStr "Carol" ]}
                empty_db eq_refl eq_refl) as (_ & _ & Hc).
    rewrite (Hc "carol@example.com");
      [reflexivity | vm_compute; reflexivity | vm_compute; tauto
       | vm_compute; reflexivity].
Defined.

Lemma stores_touched_only_for_verified_email_witness :
  exists access_token user_info email verified,
    provider_profile Cases.env access_token = inr user_info
    /\ user_info !! "email" = Some (VStr email)
    /\ In "@"%char (list_ascii_of_string email)
    /\ user_info !! "verified_email" = Some verified
    /\ truthy verified = true.
Proof.
  destruct (stores_touched_only_for_verified_email settings urllib request H
              (Some "alice") empty_db
              (outcome (run H (callback (Some "alice")) empty_db))
              (snd (fst (run H (callback (Some "alice")) empty_db)))
              (trace (run H (callback (Some "alice")) empty_db)))
    as (code & access_token & w1 & user_info & w2 & email & verified
        & _ & _ & Hp & He & Hat & Hv & Hf);
    [vm_compute; reflexivity | vm_compute; reflexivity |].
  exists access_token, user_info, email, verified.
  cbn [env_handler] in Hp. injection Hp as Hp _.
  repeat split; assumption.
Defined.

Lemma unverified_email_gets_NotVerifiedEmailError_witness :
  run H (callback (Some "bob")) empty_db =
  (inl (NotVerifiedEmailError 400 "Your google is not verified email address."),
   empty_db,
   [EvCall (get_token "bob"); token_ok; EvCall (GoogleGetUserInfo "at-bob")]).
Proof.
  apply (unverified_email_gets_NotVerifiedEmailError settings urllib request H
           "bob" empty_db "at-bob" empty_db
           {[ "email" := VStr "bob@example.com"; "verified_email" := VBool false;
              "name" := VStr "Bob" ]}
           empty_db "bob@example.com" (VBool false)).
  - reflexivity.
  - reflexivity.
  - vm_compute. reflexivity.
  - vm_compute. tauto.
  - vm_compute. reflexivity.
  - reflexivity.
Defined.

Lemma dave_good_profile :
  good_profile_fetched settings request H "anon" Cases.db_dave "at-anon"
    {[ "email" := VStr "dave@example.com"; "verified_email" := VBool true ]}
    Cases.db_dave "dave@example.com" "example.com".
Proof.
  exists Cases.db_dave, (VBool true).
  repeat split; vm_compute; reflexivity.
Defined.

Lemma dave_good_profile_empty :
  good_profile_fetched settings request H "anon" empty_db "at-anon"
    {[ "email" := VStr "dave@example.com"; "verified_email" := VBool true ]}
    empty_db "dave@example.com" "example.com".
Proof.
  exists empty_db, (VBool true).
  repeat split; vm_compute; reflexivity.
Defined.

Lemma alice_good_profile (fails : forall X, effect X -> option exn) :
  fails _ (GoogleGetToken "alice" (google_client_id settings)
             (google_client_secret settings) (url_for request "google_callback"))
  = None ->
  fails _ (GoogleGetUserInfo "at-alice") = None ->
  good_profile_fetched settings request (Cases.failing fails H) "alice" empty_db
    "at-alice"
    {[ "email" := VStr "alice@example.com"; "verified_email" := VBool true;
       "name" := VStr "Alice" ]}
    empty_db "alice@example.com" "example.com".
Proof.
  intros H1 H2. exists empty_db, (VBool true).
  unfold Cases.failing. rewrite H1, H2.
  repeat split; vm_compute; reflexivity.
Defined.

Lemma existing_user_is_not_recreated_witness :
  run H (callback (Some "anon")) Cases.db_dave =
  (inr (RedirectResponse "https://web.example/callback?key_token=jwt-2"),
   {| users := [Cases.dave]; tokens := [(7, "jwt-2")] |},
   [EvCall (get_token "anon"); token_ok; EvCall (GoogleGetUserInfo "at-anon");
    EvCall (GetUserByEmail (VStr "dave@example.com")); EvCall (CreateToken 7)]).
Proof.
  apply (existing_user_is_not_recreated settings urllib request H
           "anon" Cases.db_dave "at-anon" _ Cases.db_dave "dave@example.com"
           "example.com" Cases.dave Cases.db_dave "jwt-2"
           {| users := [Cases.dave]; tokens := [(7, "jwt-2")] |}
           dave_good_profile);
    reflexivity.
Defined.

Lemma new_user_without_name_raises_KeyError_witness :
  run H (callback (Some "anon")) empty_db =
  (inl (KeyError "name"), empty_db,
   [EvCall (get_token "anon"); token_ok; EvCall (GoogleGetUserInfo "at-anon");
    EvCall (GetUserByEmail (VStr "dave@example.com"))]).
Proof.
  apply (new_user_without_name_raises_KeyError settings urllib request H
           "anon" empty_db "at-anon" _ empty_db "dave@example.com" "example.com"
           empty_db dave_good_profile_empty).
  - reflexivity.
  - vm_compute. reflexivity.
Defined.

Lemma user_dao_exceptions_propagate_witness :
  outcome (run (Cases.failing Cases.get_user_by_email_is_down H)
             (callback (Some "alice")) empty_db)
  = inl (OtherError "sqlalchemy.exc.OperationalError")
  /\ run (Cases.failing Cases.create_user_races H) (callback (Some "alice")) empty_db
     = (inl DuplicateEmail, empty_db,
        [EvCall (get_token "alice"); token_ok; EvCall (GoogleGetUserInfo "at-alice");
         EvCall (GetUserByEmail (VStr "alice@example.com"));
         EvCall (CreateUser (VStr "Alice") (VStr "alice@example.com"))]).
Proof.
  split.
  - destruct (user_dao_exceptions_propagate settings urllib request
                (Cases.failing Cases.get_user_by_email_is_down H)
                "alice" empty_db "at-alice" _ empty_db "alice@example.com"
                "example.com"
                (alice_good_profile Cases.get_user_by_email_is_down eq_refl eq_refl))
      as (Hlookup & _).
    rewrite (Hlookup (OtherError "sqlalchemy.exc.OperationalError") empty_db eq_refl).
    reflexivity.
  - destruct (user_dao_exceptions_propagate settings urllib request
                (Cases.failing Cases.create_user_races H)
                "alice" empty_db "at-alice" _ empty_db "alice@example.com"
                "example.com"
                (alice_good_profile Cases.create_user_races eq_refl eq_refl))
      as (_ & Hcreate).
    apply (Hcreate (VStr "Alice") DuplicateEmail empty_db empty_db).
    + reflexivity.
    + vm_compute. reflexivity.
    + reflexivity.
Defined.

Lemma first_login_creates_the_user_witness :
  run H (callback (Some "alice")) empty_db =
  (inr (RedirectResponse "https://web.example/callback?key_token=jwt-1"),
   {| users := [Demo.alice]; tokens := [(1, "jwt-1")] |},
   [EvCall (get_token "alice"); token_ok; EvCall (GoogleGetUserInfo "at-alice");
    EvCall (GetUserByEmail (VStr "alice@example.com"));
    EvCall (CreateUser (VStr "Alice") (VStr "alice@example.com"));
    EvLog INFO "Created new user: xxxx@example.com";
    EvCall (CreateToken 1)]).
Proof.
  apply (first_login_creates_the_user settings urllib request
           (Cases.failing (fun _ _ => None) H)
           "alice" empty_db "at-alice" _ empty_db "alice@example.com"
           "example.com" (VStr "Alice") 1 "jwt-1" empty_db
           {| users := [Demo.alice]; tokens := [] |}
           {| users := [Demo.alice]; tokens := [(1, "jwt-1")] |}
           (alice_good_profile (fun _ _ => None) eq_refl eq_refl)).
  - reflexivity.
  - vm_compute. reflexivity.
  - reflexivity.
  - reflexivity.
Defined.

Lemma redirect_carries_created_token_witness :
  exists uid key_token,
    issue_token Cases.env uid = inr key_token
    /\ "https://web.example/callback?key_token=jwt-1"
       = urljoin urllib (web_url settings) "callback"
         +:+ "?" +:+ urlencode urllib [("key_token", key_token)].
Proof.
  destruct (redirect_carries_created_token settings urllib request H
              (Some "alice") empty_db
              "https://web.example/callback?key_token=jwt-1"
              {| users := [Demo.alice]; tokens := [(1, "jwt-1")] |}
              [EvCall (get_token "alice"); token_ok;
               EvCall (GoogleGetUserInfo "at-alice");
               EvCall (GetUserByEmail (VStr "alice@example.com"));
               EvCall (CreateUser (VStr "Alice") (VStr "alice@example.com"));
               EvLog INFO "Created new user: xxxx@example.com";
               EvCall (CreateToken 1)])
    as (uid & key_token & w3 & t0 & Hk & _ & Hurl); [vm_compute; reflexivity|].
  exists uid, key_token. split; [|exact Hurl].
  cbn [env_handler] in Hk. unfold create_token in Hk.
  destruct (issue_token Cases.env uid) as [e|tok]; [discriminate|].
  injection Hk as -> _. reflexivity.
Defined.

Lemma user_created_only_after_failed_lookup_witness :
  exists name email rest,
    get_user_by_email email empty_db = None
    /\ trace (run H (callback (Some "alice")) empty_db)
       = ([EvCall (get_token "alice"); token_ok; EvCall (GoogleGetUserInfo "at-alice");
           EvCall (GetUserByEmail email); EvCall (CreateUser name email)]
          ++ rest)%list
    /\ existsb is_create_user rest = false.
Proof.
  destruct (user_created_only_after_failed_lookup settings urllib request H
              (Some "alice") empty_db
              (outcome (run H (callback (Some "alice")) empty_db))
              (snd (fst (run H (callback (Some "alice")) empty_db)))
              (trace (run H (callback (Some "alice")) empty_db)))
    as (code & access_token & w1 & user_info & w2 & email & name & w3 & rest
        & Hc & Ht & Hp & _ & _ & Hu & Htr & Hrest);
    [vm_compute; reflexivity | vm_compute; reflexivity |].
  injection Hc as <-.
  cbn [env_handler] in Ht, Hp, Hu.
  assert (Hat : access_token = "at-alice") by (vm_compute in Ht; congruence).
  assert (Hw1 : w1 = empty_db) by congruence.
  assert (Hw2 : w2 = empty_db) by congruence.
  subst access_token w1 w2.
  exists name, email, rest.
  split; [congruence|]. split; [exact Htr | exact Hrest].
Defined.

Lemma callback_exchanges_with_login_redirect_uri_witness :
  (exists t, trace (run H (callback (Some "alice")) empty_db)
             = EvCall (get_token "alice") :: t)
  /\ outcome (run H (google_login settings Demo.google request) empty_db)
     = inr (RedirectResponse
              (auth_url Demo.google "cid-123"
                 "https://api.example/api/auth/google/callback")).
Proof.
  destruct (callback_exchanges_with_login_redirect_uri settings Demo.google urllib
              request H "alice" empty_db) as [Hfirst Hlogin].
  split; [exact Hfirst|].
  apply (Hlogin "cid-123" "s3cr3t" empty_db); reflexivity.
Defined.

Lemma extract_token_fails_iff_blank_witness :
  extract_token " " = inl IndexError /\ blank " ".
Proof.
  destruct (extract_token_fails_iff_blank " ") as [[_ Hb] _].
  split; [apply Hb|]; reflexivity.
Defined.

Lemma extracted_token_is_clean_witness :
  last_token "Bearer  jwt-1 " "jwt-1" /\ extract_token "jwt-1" = inr "jwt-1".
Proof.
  destruct (extracted_token_is_clean "Bearer  jwt-1 " "jwt-1" eq_refl)
    as (_ & _ & Hl & Hi).
  split; assumption.
Defined.

Lemma scheme_is_not_checked_witness :
  extract_token ("Basic" +:+ " " +:+ "jwt-1" +:+ "  ") = inr "jwt-1"
  /\ authenticate (Some ("Basic" +:+ " " +:+ "jwt-1" +:+ "  "))
     = authenticate (Some "jwt-1").
Proof.
  apply (scheme_is_not_checked settings UserModel inr "Basic" "jwt-1" "  ").
  - discriminate.
  - reflexivity.
  - reflexivity.
Defined.

Lemma decode_exception_outside_jose_propagates_witness :
  run H (authenticate (Some "Bearer weird")) Demo.db_alice =
  (inl (OtherError "TypeError"), Demo.db_alice, [EvCall (decode "weird")]).
Proof.
  apply (decode_exception_outside_jose_propagates settings UserModel inr H
           "Bearer weird" "weird" Demo.db_alice (OtherError "TypeError") Demo.db_alice);
    reflexivity.
Defined.

Lemma lookup_and_validation_errors_propagate_witness :
  outcome (run (Cases.failing Cases.get_user_is_down H)
             (authenticate (Some "Bearer jwt-1")) Demo.db_alice)
  = inl (OtherError "sqlalchemy.exc.OperationalError")
  /\ outcome (run H (is_authenticated settings UserModel Cases.validate_name
                       (Some "Bearer jwt-1")) Cases.db_nameless)
     = inl (OtherError "pydantic.ValidationError").
Proof.
  split.
  - destruct (lookup_and_validation_errors_propagate settings UserModel inr
                (Cases.failing Cases.get_user_is_down H)
                "Bearer jwt-1" "jwt-1" Demo.db_alice {[ "user_id" := VInt 1 ]}
                (VInt 1) Demo.db_alice) as (Hlookup & _);
      [reflexivity | reflexivity | vm_compute; reflexivity |].
    rewrite (Hlookup (OtherError "sqlalchemy.exc.OperationalError") Demo.db_alice eq_refl).
    reflexivity.
  - destruct (lookup_and_validation_errors_propagate settings UserModel
                Cases.validate_name H
                "Bearer jwt-1" "jwt-1" Cases.db_nameless {[ "user_id" := VInt 1 ]}
                (VInt 1) Cases.db_nameless) as (_ & Hvalid);
      [reflexivity | reflexivity | vm_compute; reflexivity |].
    rewrite (Hvalid Cases.nameless_alice (OtherError "pydantic.ValidationError")
               Cases.db_nameless eq_refl eq_refl).
    reflexivity.
Defined.

Lemma domain_of_email_witness :
  getitem (split ("alice" +:+ "@" +:+ "example.com") "@") 1 = inr "example.com"
  /\ getitem (split ("a" +:+ "@" +:+ "b" +:+ "@" +:+ "c") "@") 1 = inr "b".
Proof.
  split.
  - apply (domain_of_email "alice" "example.com" EmptyString);
      vm_compute; intros Hin;
      repeat (destruct Hin as [Hin|Hin]; [discriminate|]); exact Hin.
  - apply (domain_of_email "a" "b" "c");
      vm_compute; intros Hin;
      repeat (destruct Hin as [Hin|Hin]; [discriminate|]); exact Hin.
Defined.

Lemma issued_token_authenticates_its_user_witness :
  exists uid key_token user,
    issue_token Cases.env uid = inr key_token
    /\ user_email user = VStr "alice@example.com"
    /\ run H (authenticate (Some ("Bearer " +:+ key_token)))
         {| users := [Demo.alice]; tokens := [(1, "jwt-1")] |}
       = (inr user, {| users := [Demo.alice]; tokens := [(1, "jwt-1")] |},
          [EvCall (decode key_token); EvCall (GetUser (VInt uid))]).
Proof.
  destruct (issued_token_authenticates_its_user settings urllib request
              UserModel inr Cases.env "alice" empty_db
              {| users := [Demo.alice]; tokens := [(1, "jwt-1")] |}
              "https://web.example/callback?key_token=jwt-1"
              [EvCall (get_token "alice"); token_ok;
               EvCall (GoogleGetUserInfo "at-alice");
               EvCall (GetUserByEmail (VStr "alice@example.com"));
               EvCall (CreateUser (VStr "Alice") (VStr "alice@example.com"));
               EvLog INFO "Created new user: xxxx@example.com";
               EvCall (CreateToken 1)]
              "at-alice"
              {[ "email" := VStr "alice@example.com"; "verified_email" := VBool true;
                 "name" := VStr "Alice" ]}
              (VStr "alice@example.com"))
    as (uid & key_token & user & Hres & Hk & _ & _ & _ & _ & Hem & Hauth);
    [constructor | reflexivity | reflexivity | vm_compute; reflexivity
     | vm_compute; reflexivity |].
  injection Hres as <-.
  assert (Hkey : key_token = "jwt-1") by (vm_compute in Hk; congruence).
  subst key_token.
  exists 1, "jwt-1", user. split; [exact Hk|]. split; [exact Hem|].
  apply (Hauth {[ "user_id" := VInt 1 ]});
    [discriminate | reflexivity | reflexivity | vm_compute; reflexivity].
Defined.

Lemma login_keeps_tables_consistent_witness :
  tables_consistent {| users := [Demo.alice]; tokens := [(1, "jwt-1")] |}.
Proof.
  destruct (login_keeps_tables_consistent settings urllib request Cases.env
              (Some "alice") empty_db
              (inr (RedirectResponse "https://web.example/callback?key_token=jwt-1"))
              {| users := [Demo.alice]; tokens := [(1, "jwt-1")] |}
              [EvCall (get_token "alice"); token_ok;
               EvCall (GoogleGetUserInfo "at-alice");
               EvCall (GetUserByEmail (VStr "alice@example.com"));
               EvCall (CreateUser (VStr "Alice") (VStr "alice@example.com"));
               EvLog INFO "Created new user: xxxx@example.com";
               EvCall (CreateToken 1)])
    as (Hok & _ & _).
  - split; [constructor | split; constructor].
  - vm_compute. reflexivity.
  - exact Hok.
Defined.

Lemma login_faild_iff_code_missing_witness :
  run H (callback None) empty_db =
  (inr (JSONResponse 400 (json_err_content 400 "Bad Request" "Google login faild.")),
   empty_db, [EvLog ERROR "Google login failed"]).
Proof.
  destruct (login_faild_iff_code_missing settings urllib request H None empty_db)
    as [Hmissing _].
  apply Hmissing. reflexivity.
Defined.

Lemma google_login_logs_missing_credentials_witness :
  filter is_log
    (trace (run H (google_login Demo.settings_no_secret Demo.google request) empty_db))
  = [EvLog CRITICAL "Not Found Google client secret."]
  /\ run H (google_login Demo.settings_no_secret
              {| auth_url := fun _ _ => EmptyString |}
              {| url_for := fun _ => EmptyString |}) empty_db
     = run H (google_login Demo.settings_no_secret Demo.google request) empty_db.
Proof.
  destruct (google_login_logs_missing_credentials Demo.settings_no_secret Demo.google
              request H empty_db) as [Hlog Hsame].
  split; [exact Hlog|]. apply Hsame. right. reflexivity.
Defined.


End CaseRuns.
